(** * olapy: the cube configuration loader

    A shallow embedding of [olapy/core/mdx/tools/config_file_parser.py]
    (class [ConfigParser]) together with the properties of its documented
    behaviour.

    The loader is dynamically typed Python: every field access on the parsed
    YAML document can raise.  The embedding therefore works on a small model
    of Python values ([Py.pyval]) with the exceptions the interpreter raises
    for subscripting, iteration, membership tests and hashing, and follows
    the evaluation order of the source expression by expression.

    Conventions of the model: mappings keep their entries in insertion order
    (as [OrderedDict] does, and [dict] since CPython 3.7); paths are joined
    as [posixpath] joins them; the file system is a finite map from the path
    strings the program uses to what is stored there. *)

From Stdlib Require Import ZArith Ascii String.
From stdpp Require Import base option list strings gmap.

Local Open Scope string_scope.

(** ** Python values and the exceptions of the data model *)

Module Py.

(** Why a [TypeError] was raised. *)
Inductive type_error : Type :=
| NotSubscriptable   (* None['k'], 1['k'], True['k'] *)
| BadIndex           (* [..]['k'], 'abc'['k'] : indices must be integers *)
| NotIterable        (* iter(None), iter(1), 'k' in None *)
| Unhashable.        (* a list or dict used as a dictionary key *)

(** Why [open] failed: the error numbers the model tells apart, and any
    other one by its number. *)
Inductive errno : Type :=
| ENOENT | EACCES | EISDIR | ENOTDIR
| Errno (number : nat).

Inductive exn : Type :=
| KeyError (key : string)
| TypeError (why : type_error)
| IOError (code : errno) (path : string)
| ValueError         (* open('a\x00b'): embedded null character in path *)
| YAMLError.

(** A computation that returns or raises. *)
Inductive result (A : Type) : Type :=
| Ok (a : A)
| Raise (e : exn).
Arguments Ok {A} a.
Arguments Raise {A} e.

Definition bind {A B} (m : result A) (k : A -> result B) : result B :=
  match m with
  | Ok a => k a
  | Raise e => Raise e
  end.

(** The values [yaml.load] builds for a document: scalars, sequences and
    mappings.  A mapping is kept as the list of its entries in insertion
    order (floats and timestamps are not part of the model). *)
#[local] Unset Elimination Schemes.
Inductive pyval : Type :=
| PyNone
| PyBool (b : bool)
| PyInt (z : Z)
| PyStr (s : string)
| PyList (items : list pyval)
| PyDict (entries : list (pyval * pyval)).
#[local] Set Elimination Schemes.

Definition dict : Type := list (pyval * pyval).

(** [hash(v)] succeeds. *)
Definition hashable (v : pyval) : bool :=
  match v with
  | PyList _ | PyDict _ => false
  | _ => true
  end.

(** Equality of dictionary keys: [True == 1] and [False == 0]. *)
Definition key_eqb (a b : pyval) : bool :=
  match a, b with
  | PyNone, PyNone => true
  | PyStr s, PyStr t => String.eqb s t
  | PyBool x, PyBool y => Bool.eqb x y
  | PyInt x, PyInt y => Z.eqb x y
  | PyBool x, PyInt y => Z.eqb (if x then 1 else 0) y
  | PyInt x, PyBool y => Z.eqb x (if y then 1 else 0)
  | _, _ => false
  end.

(** [d.get(k)] *)
Fixpoint dict_get (d : dict) (k : pyval) : option pyval :=
  match d with
  | [] => None
  | (k', v) :: r => if key_eqb k' k then Some v else dict_get r k
  end.

(** [d[k] = v]: an existing key keeps its place (and its key object) and
    takes the new value, a new key goes last. *)
Fixpoint dict_set (d : dict) (k v : pyval) : dict :=
  match d with
  | [] => [(k, v)]
  | (k', v') :: r =>
      if key_eqb k' k then (k', v) :: r else (k', v') :: dict_set r k v
  end.

(** [v[k]] for a string subscript [k]. *)
Definition getitem (v : pyval) (k : string) : result pyval :=
  match v with
  | PyDict d =>
      match dict_get d (PyStr k) with
      | Some x => Ok x
      | None => Raise (KeyError k)
      end
  | PyList _ | PyStr _ => Raise (TypeError BadIndex)
  | PyNone | PyBool _ | PyInt _ => Raise (TypeError NotSubscriptable)
  end.

Fixpoint chars (s : string) : list pyval :=
  match s with
  | EmptyString => []
  | String c r => PyStr (String c EmptyString) :: chars r
  end.

(** The elements [for x in v] runs through. *)
Definition iter (v : pyval) : result (list pyval) :=
  match v with
  | PyList l => Ok l
  | PyDict d => Ok (map fst d)
  | PyStr s => Ok (chars s)
  | PyNone | PyBool _ | PyInt _ => Raise (TypeError NotIterable)
  end.

Fixpoint is_substring (needle s : string) : bool :=
  String.prefix needle s ||
  match s with
  | EmptyString => false
  | String _ r => is_substring needle r
  end.

(** [k in v] for a string [k]. *)
Definition contains (k : string) (v : pyval) : result bool :=
  match v with
  | PyDict d => Ok (bool_decide (is_Some (dict_get d (PyStr k))))
  | PyList l => Ok (existsb (key_eqb (PyStr k)) l)
  | PyStr s => Ok (is_substring k s)
  | PyNone | PyBool _ | PyInt _ => Raise (TypeError NotIterable)
  end.

(** [bool(v)] *)
Definition truthy (v : pyval) : bool :=
  match v with
  | PyNone => false
  | PyBool b => b
  | PyInt z => negb (Z.eqb z 0)
  | PyStr s => negb (String.eqb s "")
  | PyList l => negb (bool_decide (l = []))
  | PyDict d => negb (bool_decide (d = []))
  end.

(** [zip(a, b)]: stops with the shorter argument. *)
Definition zip (a b : pyval) : result (list (pyval * pyval)) :=
  bind (iter a) (fun xs =>
  bind (iter b) (fun ys =>
  Ok (combine xs ys))).

(** [dict(f(x) for x in xs)] and [OrderedDict(f(x) for x in xs)], started
    from [d]: the generator is consumed lazily, so the pair of an element is
    computed, hashed and stored before the next element is looked at. *)
Fixpoint dict_of_generator {A} (f : A -> result (pyval * pyval))
         (xs : list A) (d : dict) : result dict :=
  match xs with
  | [] => Ok d
  | x :: r =>
      bind (f x) (fun p =>
      if hashable (fst p)
      then dict_of_generator f r (dict_set d (fst p) (snd p))
      else Raise (TypeError Unhashable))
  end.

(** [[f(x) for x in xs]] *)
Fixpoint list_comprehension {A B} (f : A -> result B) (xs : list A)
  : result (list B) :=
  match xs with
  | [] => Ok []
  | x :: r =>
      bind (f x) (fun y =>
      bind (list_comprehension f r) (fun ys =>
      Ok (y :: ys)))
  end.

End Py.

Export Py.

Notation "'let!' x ':=' m 'in' k" := (bind m (fun x => k))
  (at level 10, x name, m at level 100, k at level 200).

(** ** The descriptor classes *)

(** Modelled from the spec: [olapy/core/mdx/tools/models.py], which declares
    the classes [Facts], [Dimension] and [Cube], is not part of the sources at
    hand; each is taken to be the plain record of the keyword arguments it is
    built from (section 3 of the specification).  A field holds whatever value
    the document gave, so its type is [pyval]. *)
Record Facts : Type := mkFacts {
  table_name : pyval;
  keys : dict;
  measures : pyval;
}.

Record Dimension : Type := mkDimension {
  dim_name : pyval;
  displayName : pyval;
  columns : dict;
}.

Record Cube : Type := mkCube {
  xmla_authentication : bool;
  cube_name : pyval;
  source : pyval;
  facts : list Facts;
  dimensions : list Dimension;
}.

(** ** From the parsed document to the descriptor

    The body of [get_cube_config] after [yaml.load], in evaluation order. *)

Module Descriptor.

(** The generator element of the [OrderedDict] of a dimension:
    [(column['name'],
      column['name'] if 'column_new_name' not in column
                     else column['column_new_name'])] *)
Definition column_pair (column : pyval) : result (pyval * pyval) :=
  let! k := getitem column "name" in
  let! renamed := contains "column_new_name" column in
  let! v := (if negb renamed then getitem column "name"
             else getitem column "column_new_name") in
  Ok (k, v).

(** [OrderedDict(... for column in dimension['dimension']['columns'])
     if 'columns' in dimension['dimension'] else {}] *)
Definition dimension_columns (dimension : pyval) : result dict :=
  let! d := getitem dimension "dimension" in
  let! declared := contains "columns" d in
  if declared then
    let! d' := getitem dimension "dimension" in
    let! cols := getitem d' "columns" in
    let! cs := iter cols in
    dict_of_generator column_pair cs []
  else Ok [].

(** [Dimension(name=..., displayName=..., columns=...)] *)
Definition get_dimension (dimension : pyval) : result Dimension :=
  let! d := getitem dimension "dimension" in
  let! n := getitem d "name" in
  let! d' := getitem dimension "dimension" in
  let! dn := getitem d' "displayName" in
  let! cs := dimension_columns dimension in
  Ok (mkDimension n dn cs).

(** [[Dimension(...) for dimension in config['dimensions']]] *)
Definition get_dimensions (config : pyval) : result (list Dimension) :=
  let! ds := getitem config "dimensions" in
  let! entries := iter ds in
  list_comprehension get_dimension entries.

(** [dict(zip(config['facts']['keys']['columns_names'],
              config['facts']['keys']['refs']))] *)
Definition facts_keys (config : pyval) : result dict :=
  let! f := getitem config "facts" in
  let! k := getitem f "keys" in
  let! names := getitem k "columns_names" in
  let! f' := getitem config "facts" in
  let! k' := getitem f' "keys" in
  let! refs := getitem k' "refs" in
  let! pairs := zip names refs in
  dict_of_generator Ok pairs [].

(** [[Facts(table_name=..., keys=..., measures=...)]] *)
Definition get_facts (config : pyval) : result (list Facts) :=
  let! f := getitem config "facts" in
  let! t := getitem f "table_name" in
  let! ks := facts_keys config in
  let! f' := getitem config "facts" in
  let! ms := getitem f' "measures" in
  Ok [mkFacts t ks ms].

(** Everything [get_cube_config] does with the value of [yaml.load]. *)
Definition cube_of_config (config : pyval) : result Cube :=
  let! fs := get_facts config in
  let! ds := get_dimensions config in
  let! x := getitem config "xmla_authentication" in
  let! n := getitem config "name" in
  let! s := getitem config "source" in
  Ok (mkCube (truthy x) n s fs ds).

End Descriptor.

Export Descriptor.

(** ** The operating system as the loader sees it *)

Module OS.

(** What the process finds at a path: a regular file, which it may or may
    not read, or a directory, which it may or may not read and may or may
    not search.  (Other kinds of files are not part of the model.) *)
Inductive node : Type :=
| RegularFile (readable : bool) (text : string)
| Directory (readable searchable : bool).

(** The process environment ([os.environ]), what [expanduser("~")] answers,
    and the file system, keyed by the path string as the program passes it
    (no normalisation, no symbolic links). *)
Record world : Type := mkWorld {
  environ : gmap string string;
  home : string;
  fs : gmap string node;
}.

(** A computation in the world: it returns or raises, and leaves a world. *)
Definition IO (A : Type) : Type := world -> result A * world.

Definition io_ret {A} (a : A) : IO A := fun w => (Ok a, w).

Definition io_bind {A B} (m : IO A) (k : A -> IO B) : IO B :=
  fun w =>
    match m w with
    | (Ok a, w') => k a w'
    | (Raise e, w') => (Raise e, w')
    end.

Definition io_lift {A} (r : result A) : IO A := fun w => (r, w).

(** ['k' in os.environ] *)
Definition environ_contains (k : string) : IO bool :=
  fun w => (Ok (bool_decide (is_Some (environ w !! k))), w).

(** [os.environ[k]] *)
Definition environ_get (k : string) : IO string :=
  fun w =>
    match environ w !! k with
    | Some v => (Ok v, w)
    | None => (Raise (KeyError k), w)
    end.

(** [expanduser("~")] *)
Definition expanduser_home : IO string :=
  fun w => (Ok (home w), w).

(** [os.path.isfile(p)]: an [os.stat] failure is caught and answered
    [False]. *)
Definition isfile (p : string) : IO bool :=
  fun w =>
    match fs w !! p with
    | Some (RegularFile _ _) => (Ok true, w)
    | Some (Directory _ _) | None => (Ok false, w)
    end.

(** The path contains the character of code 0. *)
Fixpoint has_nul (s : string) : bool :=
  match s with
  | EmptyString => false
  | String c r => Ascii.eqb c Ascii.zero || has_nul r
  end.

(** The proper ancestors of [seen ++ rest] that end within [rest]: what
    stands before each separator, the root apart, outermost first. *)
Fixpoint ancestors_from (seen rest : string) : list string :=
  match rest with
  | EmptyString => []
  | String c r =>
      let more := ancestors_from (seen ++ String c EmptyString) r in
      if Ascii.eqb c "/"%char && negb (String.eqb seen "")
      then seen :: more
      else more
  end.

(** The error number of looking up a path at which nothing is found: the
    first ancestor that is a regular file ([ENOTDIR]) or a directory the
    process may not search ([EACCES]) decides, and without one it is
    [ENOENT]. *)
Fixpoint lookup_errno (w : world) (ancestors : list string) : errno :=
  match ancestors with
  | [] => ENOENT
  | q :: r =>
      match fs w !! q with
      | Some (RegularFile _ _) => ENOTDIR
      | Some (Directory _ false) => EACCES
      | Some (Directory _ true) | None => lookup_errno w r
      end
  end.

(** What [open(p)] raises where nothing is found at [p]: [ValueError] for a
    path with a null character (such a path names nothing in any file
    system), else the [IOError] of the failed lookup. *)
Definition open_error (w : world) (p : string) : exn :=
  if has_nul p then ValueError
  else IOError (lookup_errno w (ancestors_from "" p)) p.

(** [with open(p) as f: f.read()] *)
Definition read_file (p : string) : IO string :=
  fun w =>
    match fs w !! p with
    | Some (RegularFile true text) => (Ok text, w)
    | Some (RegularFile false _) => (Raise (IOError EACCES p), w)
    | Some (Directory true _) => (Raise (IOError EISDIR p), w)
    | Some (Directory false _) => (Raise (IOError EACCES p), w)
    | None => (Raise (open_error w p), w)
    end.

(** Some other program stores a readable regular file at [p]. *)
Definition write_file (p text : string) (w : world) : world :=
  mkWorld (environ w) (home w) (<[p := RegularFile true text]> (fs w)).

(** [p] names an existing readable regular file. *)
Definition readable_file (w : world) (p : string) : bool :=
  match fs w !! p with
  | Some (RegularFile true _) => true
  | _ => false
  end.

Fixpoint ends_with_sep (s : string) : bool :=
  match s with
  | EmptyString => false
  | String c EmptyString => Ascii.eqb c "/"%char
  | String _ r => ends_with_sep r
  end.

(** One round of the loop of [posixpath.join]. *)
Definition join_step (path b : string) : string :=
  if String.prefix "/" b then b
  else if String.eqb path "" || ends_with_sep path then path ++ b
  else path ++ "/" ++ b.

(** [os.path.join(a, *p)] on a POSIX system. *)
Definition join (a : string) (p : list string) : string :=
  fold_left join_step p a.

End OS.

Export OS.

Notation "'let*' x ':=' m 'in' k" := (io_bind m (fun x => k))
  (at level 10, x name, m at level 100, k at level 200).

(** ** The class [ConfigParser] *)

Section ConfigParser.

(** [yaml.load] on the text of a file: the parsed document, or [YAMLError]
    for a text that is not YAML. *)
Variable yaml_load : string -> result pyval.

Record ConfigParser : Type := mkConfigParser {
  cube_config_file : string;
}.

(** [if path:] on an optional string: [None] and [''] are false. *)
Definition given (path : option string) : bool :=
  match path with
  | Some p => negb (String.eqb p "")
  | None => false
  end.

Definition _get_cube_path : IO string :=
  let* overridden := environ_contains "OLAPY_PATH" in
  let* home_directory :=
    (if overridden then environ_get "OLAPY_PATH" else expanduser_home) in
  io_ret (join home_directory ["olapy-data"; "cubes"; "cubes-config.yml"]).

Definition __init__ (cube_config_file : option string) : IO ConfigParser :=
  if given cube_config_file
  then io_ret (mkConfigParser (default "" cube_config_file))
  else
    let* p := _get_cube_path in
    io_ret (mkConfigParser p).

Definition config_file_exists (self : ConfigParser) : IO bool :=
  isfile (cube_config_file self).

(** The local variable [file_path] of [get_cube_config]. *)
Definition file_path (self : ConfigParser) (conf_file : option string)
  : string :=
  if given conf_file then default "" conf_file
  else cube_config_file self.

Definition get_cube_config (self : ConfigParser)
           (conf_file : option string) : IO Cube :=
  let* text := read_file (file_path self conf_file) in
  let* config := io_lift (yaml_load text) in
  io_lift (cube_of_config config).

End ConfigParser.

Arguments get_cube_config yaml_load self conf_file w : simpl never.

(** ** Documents used as examples *)

Module Examples.

(** A YAML mapping with string keys. *)
Definition mapping (l : list (string * pyval)) : pyval :=
  PyDict (map (fun kv => (PyStr (fst kv), snd kv)) l).

Definition strings (l : list string) : pyval := PyList (map PyStr l).

Definition facts_section (names refs : list string) : pyval :=
  mapping [("table_name", PyStr "stats_line");
           ("keys", mapping [("columns_names", strings names);
                             ("refs", strings refs)]);
           ("measures", strings ["montant"; "salaire_brut_mensuel"])].

Definition orgunit (body : list (string * pyval)) : pyval :=
  mapping [("dimension",
            mapping (("name", PyStr "orgunit")
                     :: ("displayName", PyStr "Organisation") :: body))].

Definition document (fs : pyval) (ds : list pyval) : pyval :=
  mapping [("xmla_authentication", PyBool false);
           ("name", PyStr "labster");
           ("source", PyStr "csv");
           ("facts", fs);
           ("dimensions", PyList ds)].

(** Scenario A of the specification (the two fields it leaves out,
    [xmla_authentication] and [displayName], are filled in as in the
    docstring of the class). *)
Definition scenario_A : pyval :=
  document (facts_section ["departement_id"] ["orgunit.id"])
    [orgunit [("columns", PyList [mapping [("name", PyStr "type")];
                                  mapping [("name", PyStr "nom")]])]].


(** Scenario C: no [dimensions] section. *)
Definition scenario_C : pyval :=
  mapping [("xmla_authentication", PyBool false);
           ("name", PyStr "labster");
           ("source", PyStr "csv");
           ("facts", facts_section ["departement_id"] ["orgunit.id"])].

(** Two key columns, one reference. *)
Definition two_names_one_ref : pyval :=
  document (facts_section ["departement_id"; "site_id"] ["orgunit.id"])
    [orgunit []].

(** A dimension without a [columns] key. *)
Definition bare_dimension : pyval :=
  document (facts_section ["departement_id"] ["orgunit.id"]) [orgunit []].

(** A world with one configuration file, and a parser that parses its
    text to the document [doc]. *)
Definition config_path : string := "/srv/olapy-data/cubes/cubes-config.yml".

Definition world_with_config : world :=
  mkWorld ∅ "/home/olapy" {[ config_path := RegularFile true "cube" ]}.

Definition parses_to (doc : pyval) : string -> result pyval :=
  fun text => if String.eqb text "cube" then Ok doc else Raise YAMLError.

End Examples.

Local Open Scope list_scope.

(** ** Vocabulary of the properties *)

(** The dictionary after the pairs [ps] have been stored one by one. *)
Definition dict_update (d : dict) (ps : list (pyval * pyval)) : dict :=
  fold_left (fun acc p => dict_set acc (fst p) (snd p)) ps d.

(** [k] is not yet a key among [ks]. *)
Definition fresh_key (ks : list pyval) (k : pyval) : bool :=
  forallb (fun k' => negb (key_eqb k' k)) ks.

(** The keys of a dictionary that receives [k]. *)
Definition add_key (ks : list pyval) (k : pyval) : list pyval :=
  if fresh_key ks k then ks ++ [k] else ks.

(** No two of the keys are equal. *)
Fixpoint distinct_keys (ks : list pyval) : bool :=
  match ks with
  | [] => true
  | k :: r => forallb (fun k' => negb (key_eqb k k')) r && distinct_keys r
  end.

(** The two lists a document declares under [facts.keys], as [zip] runs
    through them. *)
Definition declared_keys (config : pyval)
  : result (list pyval * list pyval) :=
  let! f := getitem config "facts" in
  let! k := getitem f "keys" in
  let! names := getitem k "columns_names" in
  let! refs := getitem k "refs" in
  let! ns := iter names in
  let! rs := iter refs in
  Ok (ns, rs).

(** [v] is a mapping with a key [k]. *)
Definition has_field (v : pyval) (k : string) : bool :=
  match getitem v k with
  | Ok _ => true
  | Raise _ => false
  end.

(** The dimension entry [e] gives no name. *)
Definition dimension_unnamed (e : pyval) : bool :=
  match getitem e "dimension" with
  | Ok d => negb (has_field d "name")
  | Raise _ => true
  end.

(** The document leaves out one of the fields the specification calls
    required: [name], [source], the [dimensions] section, the table name of
    the facts, or the name of one of its dimension entries. *)
Definition omits_required (config : pyval) : bool :=
  negb (has_field config "name")
  || negb (has_field config "source")
  || negb (has_field config "dimensions")
  || match getitem config "facts" with
     | Ok f => negb (has_field f "table_name")
     | Raise _ => true
     end
  || match (let! raw := getitem config "dimensions" in iter raw) with
     | Ok entries => existsb dimension_unnamed entries
     | Raise _ => false
     end.

(** [p] names an existing regular file. *)
Definition regular_file (w : world) (p : string) : Prop :=
  exists readable text, fs w !! p = Some (RegularFile readable text).

(** The columns mapping of [dim] follows the declarations of [entry]: its
    pairs are those the declared columns give, one after the other; its keys
    are the declared names in the order of their first appearance, and with
    no name declared twice the mapping is the very sequence of the pairs. *)
Definition columns_in_declared_order (entry : pyval) (dim : Dimension) : Prop :=
  forall d raw cols,
    getitem entry "dimension" = Ok d ->
    getitem d "columns" = Ok raw ->
    iter raw = Ok cols ->
    exists ps,
      Forall2 (fun column p => column_pair column = Ok p
                               /\ getitem column "name" = Ok (fst p)) cols ps
      /\ map fst (columns dim) = fold_left add_key (map fst ps) []
      /\ sublist (map fst (columns dim)) (map fst ps)
      /\ (distinct_keys (map fst ps) = true -> columns dim = ps).


(** ** The bootstrap script [setup.py]: where it prepares the data

    Of the statements that [setup.py] runs at module level, the ones that
    decide which directory is prepared: [RUNNING_TOX], [home_directory] and
    the two paths built from it.  (The calls into setuptools, [zipfile] and
    [shutil] are not modelled.) *)

Module Setup.

(** [RUNNING_TOX = 'RUNNING_TOX' in os.environ] *)
Definition RUNNING_TOX : IO bool := environ_contains "RUNNING_TOX".

(** [os.environ.get(k)]: [None] for a variable that is not set. *)
Definition environ_get_default (k : string) : IO (option string) :=
  fun w => (Ok (environ w !! k), w).

(** [if RUNNING_TOX: home_directory = os.environ.get('HOME_DIR')
     else: home_directory = expanduser("~")] *)
Definition home_directory : IO (option string) :=
  let* tox := RUNNING_TOX in
  if tox then environ_get_default "HOME_DIR"
  else
    let* h := expanduser_home in
    io_ret (Some h).

(** [os.path.join(home_directory, 'olapy-data', 'cubes')], the directory
    that is created and filled from the template archive. *)
Definition cubes_directory (home_directory : string) : string :=
  join home_directory ["olapy-data"; "cubes"].

(** [os.path.join(home_directory, 'olapy-data', 'olapy-config.xml')], the
    file that is copied from [config/olapy-config.xml]. *)
Definition olapy_config (home_directory : string) : string :=
  join home_directory ["olapy-data"; "olapy-config.xml"].

End Setup.

(** ** Vocabulary of the further properties *)

(** The keys under which [get_cube_config] subscripts without a test. *)
Definition schema_keys : list string :=
  ["facts"; "table_name"; "keys"; "columns_names"; "refs"; "measures";
   "dimensions"; "dimension"; "name"; "displayName";
   "xmla_authentication"; "source"].

(** An exception of the extraction: the [KeyError] of a schema key, or a
    [TypeError]. *)
Definition schema_error (e : exn) : Prop :=
  (exists k, e = KeyError k /\ In k schema_keys)
  \/ (exists why, e = TypeError why).

(** The values that [bool] sends to [False]. *)
Definition falsy (x : pyval) : Prop :=
  x = PyNone \/ x = PyBool false \/ x = PyInt 0 \/ x = PyStr ""
  \/ x = PyList [] \/ x = PyDict [].

(** A mapping as Python keeps it: hashable keys, no two of them equal. *)
Definition well_keyed (d : dict) : Prop :=
  Forall (fun k => hashable k = true) (map fst d)
  /\ distinct_keys (map fst d) = true.

(** ** Reasoning about the error monad *)

Lemma bind_Ok {A B} (m : result A) (k : A -> result B) (b : B) :
  bind m k = Ok b -> exists a, m = Ok a /\ k a = Ok b.
Proof. destruct m as [a|e]; simpl; [eauto | discriminate]. Qed.

Lemma bind_Raise {A B} (m : result A) (k : A -> result B) (e : exn) :
  m = Raise e -> bind m k = Raise e.
Proof. now intros ->. Qed.

(** Splits the first [bind] of a successful computation [H]. *)
Ltac bind_inv H :=
  let a := fresh "a" in
  let Ha := fresh "E" in
  apply bind_Ok in H as (a & Ha & H).

Ltac binds_inv H := repeat bind_inv H.

(** ** Dictionary keys *)

Lemma key_eqb_refl k : hashable k = true -> key_eqb k k = true.
Proof.
  destruct k; simpl; try discriminate; intros _; trivial.
  - now destruct b.
  - apply Z.eqb_refl.
  - apply String.eqb_refl.
Qed.

Lemma key_eqb_hashable a b : key_eqb a b = true -> hashable a = true /\ hashable b = true.
Proof. destruct a, b; simpl; try discriminate; auto. Qed.

(** Keys that are equal compare alike with every other key. *)
Lemma key_eqb_cong a b c : key_eqb a b = true -> key_eqb a c = key_eqb b c.
Proof.
  destruct a as [|x|x|x|?|?], b as [|y|y|y|?|?]; simpl; try discriminate;
    intros H; trivial.
  - apply Bool.eqb_prop in H. now subst.
  - apply Z.eqb_eq in H. subst. destruct c; simpl; trivial.
    destruct x, b; reflexivity.
  - apply Z.eqb_eq in H. subst. destruct c; simpl; trivial.
    destruct y, b; reflexivity.
  - apply Z.eqb_eq in H. now subst.
  - apply String.eqb_eq in H. now subst.
Qed.

Lemma key_eqb_sym a b : key_eqb a b = key_eqb b a.
Proof.
  destruct a as [|x|x|x|?|?], b as [|y|y|y|?|?]; simpl; trivial.
  - now destruct x, y.
  - apply Z.eqb_sym.
  - apply Z.eqb_sym.
  - apply Z.eqb_sym.
  - apply String.eqb_sym.
Qed.

Lemma key_eqb_str s t : key_eqb (PyStr s) (PyStr t) = true <-> s = t.
Proof. simpl. apply String.eqb_eq. Qed.

(** ** Dictionaries built pair by pair *)

Lemma dict_get_set_eq d k v :
  hashable k = true -> dict_get (dict_set d k v) k = Some v.
Proof.
  intros Hk. induction d as [|[k0 v0] r IH]; simpl.
  - now rewrite key_eqb_refl.
  - destruct (key_eqb k0 k) eqn:E; simpl; rewrite E; auto.
Qed.

Lemma dict_get_set_ne d k v k' :
  key_eqb k k' = false -> dict_get (dict_set d k v) k' = dict_get d k'.
Proof.
  intros Hne. induction d as [|[k0 v0] r IH]; simpl.
  - now rewrite Hne.
  - destruct (key_eqb k0 k) eqn:E; simpl.
    + now rewrite (key_eqb_cong _ _ k' E), Hne.
    + now rewrite IH.
Qed.

Lemma dict_set_keys d k v :
  map fst (dict_set d k v) = add_key (map fst d) k.
Proof.
  unfold add_key, fresh_key. induction d as [|[k0 v0] r IH]; simpl; trivial.
  destruct (key_eqb k0 k) eqn:E; simpl; trivial.
  rewrite IH. now destruct (forallb _ (map fst r)).
Qed.

Lemma dict_set_fresh d k v :
  fresh_key (map fst d) k = true -> dict_set d k v = d ++ [(k, v)].
Proof.
  unfold fresh_key. induction d as [|[k0 v0] r IH]; simpl; trivial.
  intros H. apply andb_prop in H as [H1 H2].
  apply negb_true_iff in H1. rewrite H1. now rewrite IH.
Qed.

Lemma dict_update_keys ps : forall d,
  map fst (dict_update d ps) = fold_left add_key (map fst ps) (map fst d).
Proof.
  induction ps as [|[k v] r IH]; intros d; simpl; trivial.
  now rewrite IH, dict_set_keys.
Qed.

Lemma dict_get_update_other ps k : forall d,
  Forall (fun p => key_eqb (fst p) k = false) ps ->
  dict_get (dict_update d ps) k = dict_get d k.
Proof.
  induction ps as [|[k0 v0] r IH]; intros d H; simpl; trivial.
  inversion H as [|? ? H1 H2]; subst. simpl in H1.
  now rewrite IH, dict_get_set_ne.
Qed.

(** The value under a key is the one of the last pair stored under it. *)
Lemma dict_get_update_last ps : forall d i k v,
  ps !! i = Some (k, v) ->
  hashable k = true ->
  (forall j p, i < j -> ps !! j = Some p -> key_eqb (fst p) k = false) ->
  dict_get (dict_update d ps) k = Some v.
Proof.
  induction ps as [|[k0 v0] r IH]; intros d i k v Hi Hk Hlast.
  - destruct i; discriminate.
  - destruct i as [|i]; simpl in *.
    + injection Hi as -> ->.
      rewrite dict_get_update_other, dict_get_set_eq; trivial.
      apply Forall_forall. intros p Hp.
      apply list_elem_of_lookup in Hp as [j Hj].
      apply (Hlast (S j)); [lia | exact Hj].
    + apply (IH _ i); trivial.
      intros j p Hij Hj. apply (Hlast (S j)); [lia | exact Hj].
Qed.

Lemma distinct_keys_fresh l k r :
  distinct_keys (l ++ k :: r) = true -> fresh_key l k = true.
Proof.
  unfold fresh_key. induction l as [|a l IH]; simpl; trivial.
  intros H. apply andb_prop in H as [H1 H2].
  rewrite forallb_app in H1. apply andb_prop in H1 as [_ H1].
  simpl in H1. apply andb_prop in H1 as [H1 _].
  rewrite H1. simpl. auto.
Qed.

(** Pairs with distinct keys are stored as they come. *)
Lemma dict_update_distinct ps : forall d,
  distinct_keys (map fst d ++ map fst ps) = true ->
  dict_update d ps = d ++ ps.
Proof.
  induction ps as [|[k v] r IH]; intros d H; simpl in *.
  - now rewrite app_nil_r.
  - rewrite dict_set_fresh by (eapply distinct_keys_fresh; eauto).
    rewrite IH.
    + now rewrite <- app_assoc.
    + now rewrite map_app, <- app_assoc.
Qed.

(** The keys of a dictionary come in the order of their first
    appearance. *)
Lemma add_keys_sublist ks : forall acc,
  exists ks', fold_left add_key ks acc = acc ++ ks' /\ sublist ks' ks.
Proof.
  induction ks as [|k r IH]; intros acc; simpl.
  - exists []. split; [now rewrite app_nil_r | constructor].
  - unfold add_key at 2. destruct (fresh_key acc k).
    + destruct (IH (acc ++ [k])) as (ks' & -> & Hs).
      exists (k :: ks'). split; [now rewrite <- app_assoc | now constructor].
    + destruct (IH acc) as (ks' & -> & Hs).
      exists ks'. split; [trivial | now constructor].
Qed.

Lemma list_comprehension_Ok {A B} (f : A -> result B) xs : forall ys,
  list_comprehension f xs = Ok ys -> Forall2 (fun x y => f x = Ok y) xs ys.
Proof.
  induction xs as [|x r IH]; simpl; intros ys H.
  - injection H as <-. constructor.
  - binds_inv H. injection H as <-. constructor; auto.
Qed.

Lemma list_comprehension_id {A} (xs : list A) :
  list_comprehension Ok xs = Ok xs.
Proof. induction xs as [|x r IH]; simpl; [trivial | now rewrite IH]. Qed.

(** A generator that was consumed to the end produced a pair with a hashable
    key for every element, and the dictionary holds them. *)
Lemma dict_of_generator_Ok {A} (f : A -> result (pyval * pyval)) xs :
  forall d r,
  dict_of_generator f xs d = Ok r ->
  exists ps, list_comprehension f xs = Ok ps
             /\ Forall (fun p => hashable (fst p) = true) ps
             /\ r = dict_update d ps.
Proof.
  induction xs as [|x xs IH]; simpl; intros d r H.
  - injection H as <-. exists []. repeat split; constructor.
  - bind_inv H. destruct (hashable (fst a)) eqn:Hh; [|discriminate].
    apply IH in H as (ps & E1 & E2 & ->).
    exists (a :: ps). rewrite E, E1. simpl. repeat split; trivial.
    now constructor.
Qed.

Lemma dict_of_generator_total {A} (f : A -> result (pyval * pyval)) xs :
  forall d ps,
  list_comprehension f xs = Ok ps ->
  Forall (fun p => hashable (fst p) = true) ps ->
  dict_of_generator f xs d = Ok (dict_update d ps).
Proof.
  induction xs as [|x xs IH]; simpl; intros d ps H Hh.
  - now injection H as <-.
  - binds_inv H. injection H as <-. inversion Hh; subst.
    rewrite E. simpl. rewrite H1. now apply IH.
Qed.

(** ** What a successful extraction tells about the document *)

Lemma getitem_Ok v k x :
  getitem v k = Ok x -> exists d, v = PyDict d /\ dict_get d (PyStr k) = Some x.
Proof.
  destruct v; simpl; try discriminate.
  destruct (dict_get entries (PyStr k)) eqn:E; [|discriminate].
  intros [= <-]. eauto.
Qed.

Lemma getitem_contains v k x :
  getitem v k = Ok x -> contains k v = Ok true.
Proof.
  intros H. apply getitem_Ok in H as (d & -> & H). simpl. rewrite H.
  now rewrite bool_decide_eq_true_2.
Qed.

Lemma contains_false_getitem v k :
  contains k v = Ok false -> forall x, getitem v k <> Ok x.
Proof.
  intros H x Hx. apply getitem_contains in Hx. congruence.
Qed.

Lemma cube_of_config_Ok config cube :
  cube_of_config config = Ok cube ->
  exists fs ds x n s,
    get_facts config = Ok fs /\ get_dimensions config = Ok ds
    /\ getitem config "xmla_authentication" = Ok x
    /\ getitem config "name" = Ok n
    /\ getitem config "source" = Ok s
    /\ cube = mkCube (truthy x) n s fs ds.
Proof.
  unfold cube_of_config. intros H. binds_inv H. injection H as <-.
  repeat eexists; eauto.
Qed.

Lemma get_facts_Ok config fs :
  get_facts config = Ok fs ->
  exists f t ks ms,
    getitem config "facts" = Ok f /\ getitem f "table_name" = Ok t
    /\ facts_keys config = Ok ks /\ getitem f "measures" = Ok ms
    /\ fs = [mkFacts t ks ms].
Proof.
  unfold get_facts. intros H. binds_inv H. injection H as <-.
  rewrite E in E2. injection E2 as <-.
  repeat eexists; eauto.
Qed.

Lemma facts_keys_Ok config ks :
  facts_keys config = Ok ks ->
  exists f k names refs ns rs,
    getitem config "facts" = Ok f /\ getitem f "keys" = Ok k
    /\ getitem k "columns_names" = Ok names /\ getitem k "refs" = Ok refs
    /\ iter names = Ok ns /\ iter refs = Ok rs
    /\ Forall (fun p => hashable (fst p) = true) (combine ns rs)
    /\ ks = dict_update [] (combine ns rs).
Proof.
  unfold facts_keys, zip. intros H. binds_inv H.
  rewrite E in E2. injection E2 as <-. rewrite E0 in E3. injection E3 as <-.
  binds_inv E5. injection E5 as <-.
  apply dict_of_generator_Ok in H as (ps & Hps & Hh & ->).
  rewrite list_comprehension_id in Hps. injection Hps as <-.
  repeat eexists; eauto.
Qed.

Lemma get_dimensions_Ok config ds :
  get_dimensions config = Ok ds ->
  exists raw entries,
    getitem config "dimensions" = Ok raw /\ iter raw = Ok entries
    /\ Forall2 (fun e d => get_dimension e = Ok d) entries ds.
Proof.
  unfold get_dimensions. intros H. binds_inv H.
  apply list_comprehension_Ok in H. eauto.
Qed.

Lemma get_dimension_Ok entry dim :
  get_dimension entry = Ok dim ->
  exists d n dn,
    getitem entry "dimension" = Ok d /\ getitem d "name" = Ok n
    /\ getitem d "displayName" = Ok dn
    /\ dimension_columns entry = Ok (columns dim)
    /\ dim_name dim = n /\ displayName dim = dn.
Proof.
  unfold get_dimension. intros H. binds_inv H. injection H as <-.
  rewrite E in E1. injection E1 as <-.
  repeat eexists; eauto.
Qed.

Lemma column_pair_Ok column p :
  column_pair column = Ok p ->
  getitem column "name" = Ok (fst p)
  /\ (contains "column_new_name" column = Ok true
      /\ getitem column "column_new_name" = Ok (snd p)
      \/ contains "column_new_name" column = Ok false /\ snd p = fst p).
Proof.
  unfold column_pair. intros H. binds_inv H. injection H as <-. simpl.
  split; trivial. destruct a0; simpl in E1; [left | right]; split; trivial.
  congruence.
Qed.

(** The columns of a dimension that declares some. *)
Lemma dimension_columns_declared entry d raw cols cs :
  getitem entry "dimension" = Ok d ->
  getitem d "columns" = Ok raw ->
  iter raw = Ok cols ->
  dimension_columns entry = Ok cs ->
  exists ps, list_comprehension column_pair cols = Ok ps
             /\ Forall (fun p => hashable (fst p) = true) ps
             /\ cs = dict_update [] ps.
Proof.
  intros Hd Hraw Hcols. unfold dimension_columns.
  rewrite Hd. simpl. rewrite (getitem_contains _ _ _ Hraw). simpl.
  rewrite Hraw. simpl. rewrite Hcols. simpl.
  apply dict_of_generator_Ok.
Qed.

(** The columns of a dimension that declares none. *)
Lemma dimension_columns_absent entry d :
  getitem entry "dimension" = Ok d ->
  contains "columns" d = Ok false ->
  dimension_columns entry = Ok [].
Proof.
  intros Hd Hc. unfold dimension_columns. rewrite Hd. simpl. now rewrite Hc.
Qed.

(** ** [get_cube_config] in the world *)

Section Loading.

Variable yaml_load : string -> result pyval.
Variables (self : ConfigParser) (conf_file : option string) (w : world).

(** The loader only reads. *)
Lemma get_cube_config_world :
  snd (get_cube_config yaml_load self conf_file w) = w.
Proof.
  unfold get_cube_config, io_bind, read_file, io_lift.
  destruct (fs w !! file_path self conf_file) as [[[|] text|[|] ?]|];
    simpl; trivial.
  destruct (yaml_load text); reflexivity.
Qed.

(** On a readable file the loader is [yaml.load] followed by the
    extraction. *)
Lemma get_cube_config_readable text :
  fs w !! file_path self conf_file = Some (RegularFile true text) ->
  get_cube_config yaml_load self conf_file w
  = (bind (yaml_load text) cube_of_config, w).
Proof.
  intros H. unfold get_cube_config, io_bind, read_file, io_lift.
  rewrite H. destruct (yaml_load text); reflexivity.
Qed.

(** A descriptor comes from a readable file whose text parses to a
    document from which it is extracted. *)
Lemma get_cube_config_Ok cube :
  fst (get_cube_config yaml_load self conf_file w) = Ok cube ->
  exists text config,
    fs w !! file_path self conf_file = Some (RegularFile true text)
    /\ yaml_load text = Ok config
    /\ cube_of_config config = Ok cube.
Proof.
  unfold get_cube_config, io_bind, read_file, io_lift.
  destruct (fs w !! file_path self conf_file) as [[[|] text|[|] ?]|] eqn:E;
    simpl; try discriminate.
  destruct (yaml_load text) as [config|] eqn:E'; simpl; try discriminate.
  eauto.
Qed.

End Loading.

(** ** The key columns of the facts table *)

Lemma combine_take {A B} (xs : list A) : forall (ys : list B),
  combine xs ys
  = combine (take (length xs `min` length ys) xs)
            (take (length xs `min` length ys) ys).
Proof.
  induction xs as [|x xs IH]; intros [|y ys]; simpl; trivial.
  now rewrite <- IH.
Qed.

Lemma facts_keys_total config ns rs :
  declared_keys config = Ok (ns, rs) ->
  Forall (fun p => hashable (fst p) = true) (combine ns rs) ->
  facts_keys config = Ok (dict_update [] (combine ns rs)).
Proof.
  unfold declared_keys, facts_keys, zip. intros H Hh. binds_inv H.
  injection H as <- <-.
  rewrite E. simpl. rewrite E0. simpl. rewrite E1. simpl. rewrite E2. simpl.
  rewrite E3. simpl. rewrite E4. simpl.
  apply dict_of_generator_total; [apply list_comprehension_id | trivial].
Qed.

Lemma facts_keys_declared config ks :
  facts_keys config = Ok ks ->
  exists ns rs,
    declared_keys config = Ok (ns, rs)
    /\ Forall (fun p => hashable (fst p) = true) (combine ns rs)
    /\ ks = dict_update [] (combine ns rs).
Proof.
  intros H. apply facts_keys_Ok in H
    as (f & k & names & refs & ns & rs & E1 & E2 & E3 & E4 & E5 & E6 & Hh & ->).
  exists ns, rs. repeat split; trivial.
  unfold declared_keys. rewrite E1. simpl. rewrite E2. simpl. rewrite E3.
  simpl. rewrite E4. simpl. rewrite E5. simpl. now rewrite E6.
Qed.

(** C1 (as stated, refuted): the document with the key columns
    [departement_id, site_id] and the single reference [orgunit.id] declares
    lists of lengths 2 and 1, and [get_cube_config] returns a descriptor for
    it, whose keys mapping holds the first pair only. *)
Lemma C1_unequal_lengths_load :
  declared_keys Examples.two_names_one_ref
  = Ok ([PyStr "departement_id"; PyStr "site_id"], [PyStr "orgunit.id"])
  /\ exists cube fct,
       get_cube_config (Examples.parses_to Examples.two_names_one_ref)
         (mkConfigParser Examples.config_path) None Examples.world_with_config
       = (Ok cube, Examples.world_with_config)
       /\ facts cube = [fct]
       /\ keys fct = [(PyStr "departement_id", PyStr "orgunit.id")].
Proof.
  split; [reflexivity |].
  eexists; eexists. split; [vm_compute; reflexivity |].
  split; reflexivity.
Qed.

(** C1 (amended): a difference in length between [columns_names] and [refs]
    is no error.  Whatever the two lengths, when the names that get paired
    are hashable and the rest of the document loads, [get_cube_config]
    returns the descriptor, and its keys mapping is built from the first
    [min (length names) (length refs)] names and references, paired position
    for position; what the longer list has beyond that is dropped. *)
Theorem C1_keys_truncated_to_shorter
  (yaml_load : string -> result pyval) (self : ConfigParser)
  (conf_file : option string) (w : world) (text : string)
  (config f t ms x n s : pyval) (ns rs : list pyval) (ds : list Dimension) :
  fs w !! file_path self conf_file = Some (RegularFile true text) ->
  yaml_load text = Ok config ->
  declared_keys config = Ok (ns, rs) ->
  Forall (fun p => hashable (fst p) = true) (combine ns rs) ->
  getitem config "facts" = Ok f ->
  getitem f "table_name" = Ok t ->
  getitem f "measures" = Ok ms ->
  get_dimensions config = Ok ds ->
  getitem config "xmla_authentication" = Ok x ->
  getitem config "name" = Ok n ->
  getitem config "source" = Ok s ->
  let m := length ns `min` length rs in
  get_cube_config yaml_load self conf_file w
  = (Ok (mkCube (truthy x) n s
           [mkFacts t (dict_update [] (combine (take m ns) (take m rs))) ms]
           ds), w).
Proof.
  intros Hfile Hparse Hkeys Hh Hf Ht Hms Hds Hx Hn Hs m.
  rewrite (get_cube_config_readable _ _ _ _ _ Hfile), Hparse. simpl.
  unfold cube_of_config, get_facts.
  rewrite Hf. simpl. rewrite Ht. simpl.
  rewrite (facts_keys_total _ _ _ Hkeys Hh). simpl.
  rewrite Hms. simpl. rewrite Hds. simpl. rewrite Hx. simpl.
  rewrite Hn. simpl. rewrite Hs. simpl.
  unfold m. now rewrite <- combine_take.
Qed.

Lemma C1_keys_truncated_to_shorter_witness :
  get_cube_config (Examples.parses_to Examples.two_names_one_ref)
    (mkConfigParser Examples.config_path) None Examples.world_with_config
  = (Ok (mkCube false (PyStr "labster") (PyStr "csv")
           [mkFacts (PyStr "stats_line")
              [(PyStr "departement_id", PyStr "orgunit.id")]
              (PyList [PyStr "montant"; PyStr "salaire_brut_mensuel"])]
           [mkDimension (PyStr "orgunit") (PyStr "Organisation") []]),
     Examples.world_with_config).
Proof.
  apply (C1_keys_truncated_to_shorter
           (Examples.parses_to Examples.two_names_one_ref)
           (mkConfigParser Examples.config_path) None
           Examples.world_with_config "cube" Examples.two_names_one_ref
           (Examples.facts_section ["departement_id"; "site_id"] ["orgunit.id"])
           (PyStr "stats_line")
           (PyList [PyStr "montant"; PyStr "salaire_brut_mensuel"])
           (PyBool false) (PyStr "labster") (PyStr "csv")
           [PyStr "departement_id"; PyStr "site_id"] [PyStr "orgunit.id"]
           [mkDimension (PyStr "orgunit") (PyStr "Organisation") []]);
    try reflexivity.
  repeat constructor.
Defined.

(** ** Documents that leave out a required field *)

Lemma has_field_Ok v k x : getitem v k = Ok x -> has_field v k = true.
Proof. unfold has_field. now intros ->. Qed.

Lemma getitem_missing d k :
  has_field (PyDict d) k = false -> getitem (PyDict d) k = Raise (KeyError k).
Proof.
  unfold has_field. simpl. now destruct (dict_get d (PyStr k)).
Qed.

Lemma cube_of_config_complete config cube :
  cube_of_config config = Ok cube -> omits_required config = false.
Proof.
  intros H.
  apply cube_of_config_Ok in H as (fs & ds & x & n & s & Hf & Hd & _ & Hn & Hs & _).
  apply get_facts_Ok in Hf as (f & t & ks & ms & Hf & Ht & _).
  apply get_dimensions_Ok in Hd as (raw & entries & Hraw & Hit & Hall).
  unfold omits_required.
  rewrite (has_field_Ok _ _ _ Hn), (has_field_Ok _ _ _ Hs),
    (has_field_Ok _ _ _ Hraw), Hf, (has_field_Ok _ _ _ Ht), Hraw.
  simpl. rewrite Hit.
  clear - Hall. induction Hall as [|e dim es dims He _ IH]; simpl; trivial.
  rewrite IH, orb_false_r.
  apply get_dimension_Ok in He as (d & n & _ & Hd & Hn & _).
  unfold dimension_unnamed. now rewrite Hd, (has_field_Ok _ _ _ Hn).
Qed.

(** A comprehension stops at the first element that raises. *)
Lemma list_comprehension_Raise {A B} (f : A -> result B) pre ys x post e :
  list_comprehension f pre = Ok ys ->
  f x = Raise e ->
  list_comprehension f (pre ++ x :: post) = Raise e.
Proof.
  revert ys. induction pre as [|p pre IH]; simpl; intros ys Hpre Hx.
  - now rewrite Hx.
  - binds_inv Hpre. rewrite E. simpl. now rewrite (IH _ E0 Hx).
Qed.

(** C2 (as stated, refuted): the empty document, which [yaml.load] turns
    into [None], has no [dimensions] section (nor any other field), and
    [get_cube_config] fails on it with the [TypeError] of subscripting
    [None], which names no field; the same happens with a [TypeError] of
    iteration for a mapping without [name] whose [dimensions] is empty. *)
Lemma C2_error_without_field :
  (has_field PyNone "dimensions" = false
   /\ omits_required PyNone = true
   /\ fst (get_cube_config (Examples.parses_to PyNone)
             (mkConfigParser Examples.config_path) None
             Examples.world_with_config)
      = Raise (TypeError NotSubscriptable))
  /\ let doc :=
       Examples.mapping
         [("xmla_authentication", PyBool false); ("source", PyStr "csv");
          ("facts", Examples.facts_section ["departement_id"] ["orgunit.id"]);
          ("dimensions", PyNone)] in
     has_field doc "name" = false
     /\ omits_required doc = true
     /\ fst (get_cube_config (Examples.parses_to doc)
               (mkConfigParser Examples.config_path) None
               Examples.world_with_config)
        = Raise (TypeError NotIterable).
Proof. repeat split; vm_compute; reflexivity. Qed.

(** C2 (amended): a document that leaves out a required field is never
    loaded: [get_cube_config] raises and returns no descriptor.  The
    exception is the [KeyError] of the missing key whenever everything the
    loader reads before that key is well formed: [KeyError('dimensions')] for
    a document whose facts load and that has no [dimensions] section,
    [KeyError('name')] and [KeyError('source')] once facts and dimensions
    have loaded, [KeyError('table_name')] for a facts mapping without it, and
    [KeyError('name')] for the first dimension mapping without a name.  (A
    document that is not a mapping where one is expected fails with a
    [TypeError] instead.) *)
Theorem C2_missing_field_fails
  (yaml_load : string -> result pyval) (self : ConfigParser)
  (conf_file : option string) (w : world) (text : string) (config : pyval) :
  fs w !! file_path self conf_file = Some (RegularFile true text) ->
  yaml_load text = Ok config ->
  let outcome := get_cube_config yaml_load self conf_file w in
  (omits_required config = true -> exists e, outcome = (Raise e, w))
  /\ (forall fs,
        get_facts config = Ok fs -> has_field config "dimensions" = false ->
        outcome = (Raise (KeyError "dimensions"), w))
  /\ (forall fs ds x,
        get_facts config = Ok fs -> get_dimensions config = Ok ds ->
        getitem config "xmla_authentication" = Ok x ->
        has_field config "name" = false ->
        outcome = (Raise (KeyError "name"), w))
  /\ (forall fs ds x n,
        get_facts config = Ok fs -> get_dimensions config = Ok ds ->
        getitem config "xmla_authentication" = Ok x ->
        getitem config "name" = Ok n ->
        has_field config "source" = false ->
        outcome = (Raise (KeyError "source"), w))
  /\ (forall f,
        getitem config "facts" = Ok (PyDict f) ->
        has_field (PyDict f) "table_name" = false ->
        outcome = (Raise (KeyError "table_name"), w))
  /\ (forall fs raw pre loaded e post d,
        get_facts config = Ok fs ->
        getitem config "dimensions" = Ok raw ->
        iter raw = Ok (pre ++ e :: post) ->
        list_comprehension get_dimension pre = Ok loaded ->
        getitem e "dimension" = Ok (PyDict d) ->
        has_field (PyDict d) "name" = false ->
        outcome = (Raise (KeyError "name"), w)).
Proof.
  intros Hfile Hparse outcome. unfold outcome.
  rewrite (get_cube_config_readable _ _ _ _ _ Hfile), Hparse. simpl.
  repeat split.
  - intros Hom. destruct (cube_of_config config) as [cube|e] eqn:E; eauto.
    apply cube_of_config_complete in E. congruence.
  - intros fs0 Hf Hd. unfold cube_of_config. rewrite Hf. simpl.
    apply get_facts_Ok in Hf as (f & _ & _ & _ & Hf & _).
    apply getitem_Ok in Hf as (d & -> & _).
    unfold get_dimensions. now rewrite (getitem_missing _ _ Hd).
  - intros fs0 ds x Hf Hd Hx Hn. unfold cube_of_config.
    rewrite Hf. simpl. rewrite Hd. simpl. rewrite Hx. simpl.
    apply getitem_Ok in Hx as (d & -> & _).
    now rewrite (getitem_missing _ _ Hn).
  - intros fs0 ds x n Hf Hd Hx Hn Hs. unfold cube_of_config.
    rewrite Hf. simpl. rewrite Hd. simpl. rewrite Hx. simpl. rewrite Hn. simpl.
    apply getitem_Ok in Hx as (d & -> & _).
    now rewrite (getitem_missing _ _ Hs).
  - intros f Hf Ht. unfold cube_of_config, get_facts.
    rewrite Hf. cbn [bind]. now rewrite (getitem_missing _ _ Ht).
  - intros fs0 raw pre loaded e post d Hf Hraw Hit Hpre He Hn.
    unfold cube_of_config. rewrite Hf. simpl.
    unfold get_dimensions. rewrite Hraw. simpl. rewrite Hit. simpl.
    rewrite (list_comprehension_Raise _ _ _ _ _ (KeyError "name") Hpre); trivial.
    unfold get_dimension. rewrite He. cbn [bind].
    now rewrite (getitem_missing _ _ Hn).
Qed.

Lemma C2_missing_field_fails_witness :
  omits_required Examples.scenario_C = true
  /\ get_cube_config (Examples.parses_to Examples.scenario_C)
       (mkConfigParser Examples.config_path) None Examples.world_with_config
     = (Raise (KeyError "dimensions"), Examples.world_with_config).
Proof.
  split; [reflexivity |].
  destruct (C2_missing_field_fails (Examples.parses_to Examples.scenario_C)
              (mkConfigParser Examples.config_path) None
              Examples.world_with_config "cube" Examples.scenario_C
              eq_refl eq_refl) as (_ & Hdims & _).
  apply (Hdims [mkFacts (PyStr "stats_line")
                  [(PyStr "departement_id", PyStr "orgunit.id")]
                  (PyList [PyStr "montant"; PyStr "salaire_brut_mensuel"])]);
    reflexivity.
Defined.

(** ** Files that are not there *)

Lemma get_cube_config_unopened
  (yaml_load : string -> result pyval) (self : ConfigParser)
  (conf_file : option string) (w : world) (e : exn) :
  read_file (file_path self conf_file) w = (Raise e, w) ->
  get_cube_config yaml_load self conf_file w = (Raise e, w).
Proof. intros H. unfold get_cube_config, io_bind. now rewrite H. Qed.

Lemma read_file_readable (w : world) (p text : string) :
  fs w !! p = Some (RegularFile true text) -> read_file p w = (Ok text, w).
Proof. intros H. unfold read_file. now rewrite H. Qed.

(** C3 (as stated, refuted): the empty string names no existing readable
    file, yet a call that passes it as the path does not fail: the test [if
    conf_file:] takes it for no path, the file of the instance is opened,
    and a descriptor is returned. *)
Lemma C3_empty_conf_file_loads :
  readable_file Examples.world_with_config "" = false
  /\ exists cube,
       get_cube_config (Examples.parses_to Examples.scenario_A)
         (mkConfigParser Examples.config_path) (Some "")
         Examples.world_with_config
       = (Ok cube, Examples.world_with_config).
Proof. split; [reflexivity |]. eexists. vm_compute. reflexivity. Qed.

(** C3 (amended): the call opens [conf_file] when that is a non-empty
    string and the path of the instance otherwise.  When the path it opens
    cannot be opened, it raises the error of [open] for that path and
    returns no descriptor: where nothing is found, [ValueError] for a path
    with a null character and an [IOError] otherwise; for a directory the
    [IOError] of a directory ([EISDIR], or [EACCES] if it may not be read);
    for a regular file that may not be read the [IOError] of the refused
    access.  The call changes nothing, and a descriptor is only returned
    when the file was read, its text parsed and the whole document
    extracted. *)
Theorem C3_unreadable_path_raises
  (yaml_load : string -> result pyval) (self : ConfigParser)
  (conf_file : option string) (w : world) :
  let p := file_path self conf_file in
  let outcome := get_cube_config yaml_load self conf_file w in
  ((forall q, conf_file = Some q -> q <> "" -> p = q)
   /\ (conf_file = None \/ conf_file = Some "" -> p = cube_config_file self))
  /\ (fs w !! p = None ->
      exists e, outcome = (Raise e, w)
                /\ if has_nul p then e = ValueError
                   else exists code, e = IOError code p)
  /\ (forall readable searchable,
        fs w !! p = Some (Directory readable searchable) ->
        outcome
        = (Raise (IOError (if readable then EISDIR else EACCES) p), w))
  /\ (forall text,
        fs w !! p = Some (RegularFile false text) ->
        outcome = (Raise (IOError EACCES p), w))
  /\ snd outcome = w
  /\ (forall cube,
        fst outcome = Ok cube ->
        exists text config,
          read_file p w = (Ok text, w)
          /\ yaml_load text = Ok config
          /\ cube_of_config config = Ok cube).
Proof.
  intros p outcome. unfold outcome. repeat split.
  - intros q -> Hq. unfold p, file_path, given.
    apply String.eqb_neq in Hq. now rewrite Hq.
  - intros [-> | ->]; reflexivity.
  - intros Hnone. exists (open_error w p). split.
    + apply get_cube_config_unopened. fold p. unfold read_file.
      now rewrite Hnone.
    + unfold open_error. destruct (has_nul p); eauto.
  - intros readable searchable Hdir. apply get_cube_config_unopened. fold p.
    unfold read_file. rewrite Hdir. now destruct readable.
  - intros text Hfile. apply get_cube_config_unopened. fold p.
    unfold read_file. now rewrite Hfile.
  - apply get_cube_config_world.
  - intros cube H.
    apply get_cube_config_Ok in H as (text & config & Hfile & Hparse & H).
    exists text, config. repeat split; trivial.
    now apply read_file_readable.
Qed.

Lemma C3_unreadable_path_raises_witness :
  get_cube_config (Examples.parses_to Examples.scenario_A)
    (mkConfigParser Examples.config_path) (Some "/nowhere/cubes-config.yml")
    Examples.world_with_config
  = (Raise (IOError ENOENT "/nowhere/cubes-config.yml"),
     Examples.world_with_config).
Proof.
  destruct (C3_unreadable_path_raises (Examples.parses_to Examples.scenario_A)
              (mkConfigParser Examples.config_path)
              (Some "/nowhere/cubes-config.yml") Examples.world_with_config)
    as (_ & Hmissing & _).
  destruct (Hmissing eq_refl) as (e & Hout & _).
  rewrite Hout. vm_compute in Hout. injection Hout as <-. reflexivity.
Defined.

(** ** Whether the configuration file exists *)

(** C8: [config_file_exists] answers, without raising and without changing
    anything, whether the path of the instance names an existing regular
    file; its answer is [False] where nothing exists; and an answer given
    earlier is not kept: as soon as a file has been written at the path, the
    next call answers [True]. *)
Theorem C8_config_file_exists (self : ConfigParser) (w : world) :
  let p := cube_config_file self in
  (exists b, config_file_exists self w = (Ok b, w)
             /\ (b = true <-> regular_file w p))
  /\ (fs w !! p = None -> config_file_exists self w = (Ok false, w))
  /\ (forall text,
        let w' := write_file p text (snd (config_file_exists self w)) in
        config_file_exists self w' = (Ok true, w')).
Proof.
  intros p. unfold config_file_exists, isfile, regular_file. fold p.
  repeat split.
  - destruct (fs w !! p) as [[r t|]|] eqn:E; eexists; (split; [reflexivity|]).
    + split; eauto.
    + split; [discriminate | intros (? & ? & [=])].
    + split; [discriminate | intros (? & ? & [=])].
  - now intros ->.
  - intros text. simpl. now rewrite lookup_insert_eq.
Qed.

Lemma C8_config_file_exists_witness :
  config_file_exists (mkConfigParser "/nowhere/cubes-config.yml")
    Examples.world_with_config
  = (Ok false, Examples.world_with_config).
Proof.
  destruct (C8_config_file_exists
              (mkConfigParser "/nowhere/cubes-config.yml")
              Examples.world_with_config) as (_ & Habsent & _).
  apply Habsent. reflexivity.
Defined.

(** ** One facts table per document *)

(** C9: the descriptor of a successfully loaded document has exactly one
    element in [facts]. *)
Theorem C9_single_facts
  (yaml_load : string -> result pyval) (self : ConfigParser)
  (conf_file : option string) (w : world) (cube : Cube) :
  fst (get_cube_config yaml_load self conf_file w) = Ok cube ->
  length (facts cube) = 1.
Proof.
  intros H. apply get_cube_config_Ok in H as (text & config & _ & _ & H).
  apply cube_of_config_Ok in H as (fs & ds & x & n & s & Hf & _ & _ & _ & _ & ->).
  apply get_facts_Ok in Hf as (f & t & ks & ms & _ & _ & _ & _ & ->).
  reflexivity.
Qed.

Lemma C9_single_facts_witness :
  length
    (facts
       (mkCube false (PyStr "labster") (PyStr "csv")
          [mkFacts (PyStr "stats_line")
             [(PyStr "departement_id", PyStr "orgunit.id")]
             (PyList [PyStr "montant"; PyStr "salaire_brut_mensuel"])]
          [mkDimension (PyStr "orgunit") (PyStr "Organisation")
             [(PyStr "type", PyStr "type"); (PyStr "nom", PyStr "nom")]]))
  = 1.
Proof.
  apply (C9_single_facts (Examples.parses_to Examples.scenario_A)
           (mkConfigParser Examples.config_path) None
           Examples.world_with_config).
  vm_compute. reflexivity.
Defined.

(** ** Dimensions that declare no columns *)

(** C10: a dimension entry whose mapping gives [name] and [displayName] but
    has no [columns] key is built without error, with an empty columns
    mapping; and in every document that loads, each dimension entry without
    a [columns] key has a descriptor with an empty columns mapping. *)
Theorem C10_columns_optional :
  (forall entry d n dn,
      getitem entry "dimension" = Ok d ->
      getitem d "name" = Ok n ->
      getitem d "displayName" = Ok dn ->
      has_field d "columns" = false ->
      get_dimension entry = Ok (mkDimension n dn []))
  /\ (forall yaml_load self conf_file w cube,
        fst (get_cube_config yaml_load self conf_file w) = Ok cube ->
        exists text config raw entries,
          fs w !! file_path self conf_file = Some (RegularFile true text)
          /\ yaml_load text = Ok config
          /\ getitem config "dimensions" = Ok raw
          /\ iter raw = Ok entries
          /\ Forall2
               (fun entry dim =>
                  forall d, getitem entry "dimension" = Ok d ->
                            has_field d "columns" = false ->
                            columns dim = [])
               entries (dimensions cube)).
Proof.
  assert (Habsent : forall d n, getitem d "name" = Ok n ->
            has_field d "columns" = false -> contains "columns" d = Ok false).
  { intros d n Hn Hc. apply getitem_Ok in Hn as (e & -> & _).
    unfold has_field in Hc. simpl in *.
    destruct (dict_get e (PyStr "columns")); [discriminate|].
    rewrite bool_decide_eq_false_2; [trivial | now intros [? [=]]]. }
  split.
  - intros entry d n dn Hd Hn Hdn Hc. unfold get_dimension.
    rewrite Hd. cbn [bind]. rewrite Hn. cbn [bind]. rewrite Hdn. cbn [bind].
    now rewrite (dimension_columns_absent _ _ Hd (Habsent _ _ Hn Hc)).
  - intros yaml_load self conf_file w cube H.
    apply get_cube_config_Ok in H as (text & config & Hfile & Hparse & H).
    apply cube_of_config_Ok in H as (fs & ds & x & n & s & _ & Hds & _ & _ & _ & ->).
    apply get_dimensions_Ok in Hds as (raw & entries & Hraw & Hit & Hall).
    exists text, config, raw, entries. repeat split; trivial. simpl.
    eapply Forall2_impl; [exact Hall |].
    intros entry dim He d Hd Hc.
    apply get_dimension_Ok in He as (d' & n' & dn' & Hd' & Hn' & _ & Hcols & _).
    rewrite Hd in Hd'. injection Hd' as <-.
    rewrite (dimension_columns_absent _ _ Hd (Habsent _ _ Hn' Hc)) in Hcols.
    now injection Hcols.
Qed.

Lemma C10_columns_optional_witness :
  get_dimension (Examples.orgunit [])
  = Ok (mkDimension (PyStr "orgunit") (PyStr "Organisation") []).
Proof.
  destruct C10_columns_optional as [Hbuilt _].
  apply (Hbuilt (Examples.orgunit [])
           (Examples.mapping [("name", PyStr "orgunit");
                              ("displayName", PyStr "Organisation")]));
    reflexivity.
Defined.

(** ** The path of the configuration file *)

Lemma append_cons c (s t : string) :
  (String c s ++ t)%string = String c (s ++ t)%string.
Proof. reflexivity. Qed.

Lemma append_assoc (s t u : string) :
  ((s ++ t) ++ u)%string = (s ++ t ++ u)%string.
Proof.
  induction s as [|c s IH]; [reflexivity |].
  now rewrite !append_cons, IH.
Qed.

Lemma append_nonempty (s : string) c t :
  String.eqb (s ++ String c t)%string "" = false.
Proof. apply String.eqb_neq. now destruct s. Qed.

(** Whether a path ends with the separator is decided by its last part. *)
Lemma ends_with_sep_append (s : string) c t :
  ends_with_sep (s ++ String c t)%string = ends_with_sep (String c t).
Proof.
  induction s as [|a s IH]; [reflexivity |].
  rewrite append_cons, <- IH.
  destruct s; reflexivity.
Qed.

(** A round of [join] after a path that ends in a component. *)
Lemma join_step_component (base : string) c t (b : string) :
  String.prefix "/" b = false ->
  ends_with_sep (String c t) = false ->
  join_step (base ++ String c t)%string b
  = (base ++ String c t ++ "/" ++ b)%string.
Proof.
  intros Hb Hsep. unfold join_step.
  rewrite Hb, append_nonempty, ends_with_sep_append, Hsep.
  cbn [orb]. apply append_assoc.
Qed.

(** Joining the three fixed components to a base directory puts one
    separator after the base, unless the base is empty or brings its own. *)
Lemma join_cubes_config (base : string) :
  join base ["olapy-data"; "cubes"; "cubes-config.yml"]
  = (base
     ++ (if String.eqb base "" || ends_with_sep base then "" else "/")
     ++ "olapy-data/cubes/cubes-config.yml")%string.
Proof.
  unfold join. cbn [fold_left].
  assert (Hfirst : join_step base "olapy-data"
                   = (base ++ (if String.eqb base "" || ends_with_sep base
                               then "olapy-data" else "/olapy-data"))%string).
  { unfold join_step. change (String.prefix "/" "olapy-data") with false.
    cbv iota. now destruct (String.eqb base "" || ends_with_sep base). }
  rewrite Hfirst. clear Hfirst.
  destruct (String.eqb base "" || ends_with_sep base).
  - rewrite join_step_component by reflexivity.
    change ("olapy-data" ++ "/" ++ "cubes")%string with "olapy-data/cubes".
    now rewrite join_step_component by reflexivity.
  - rewrite join_step_component by reflexivity.
    change ("/olapy-data" ++ "/" ++ "cubes")%string with "/olapy-data/cubes".
    now rewrite join_step_component by reflexivity.
Qed.

(** C7 (as stated, refuted): a caller who passes the empty string as the
    explicit path does not get it used verbatim: the test [if
    cube_config_file:] takes it for no path at all, and the loader resolves
    the default location. *)
Lemma C7_empty_path_not_verbatim :
  exists self,
    __init__ (Some "") Examples.world_with_config
    = (Ok self, Examples.world_with_config)
    /\ cube_config_file self = "/home/olapy/olapy-data/cubes/cubes-config.yml"
    /\ cube_config_file self <> "".
Proof.
  eexists. split; [vm_compute; reflexivity |].
  split; [reflexivity | discriminate].
Qed.

(** C7 (amended): an explicit path that is not the empty string is used
    verbatim.  When no path or the empty string is given, the base directory
    is the value of [OLAPY_PATH] when that variable is set and the home
    directory of the user when it is not, and the resolved path is the base
    directory followed by [olapy-data/cubes/cubes-config.yml], with a
    separator in between unless the base directory is empty or ends with
    one.  Construction never raises and changes nothing. *)
Theorem C7_resolved_path (arg : option string) (w : world) :
  let base :=
    match environ w !! "OLAPY_PATH" with
    | Some v => v
    | None => home w
    end in
  (forall p, arg = Some p -> p <> "" ->
             __init__ arg w = (Ok (mkConfigParser p), w))
  /\ (arg = None \/ arg = Some "" ->
      __init__ arg w
      = (Ok (mkConfigParser
               (base
                ++ (if String.eqb base "" || ends_with_sep base
                    then "" else "/")
                ++ "olapy-data/cubes/cubes-config.yml")%string), w)).
Proof.
  intros base. split.
  - intros p -> Hp. unfold __init__, given.
    apply String.eqb_neq in Hp. now rewrite Hp.
  - intros Harg.
    assert (Hgiven : given arg = false) by now destruct Harg as [-> | ->].
    unfold __init__. rewrite Hgiven.
    unfold _get_cube_path, io_bind, environ_contains, environ_get,
      expanduser_home, io_ret, base.
    destruct (environ w !! "OLAPY_PATH") as [v|] eqn:E.
    + rewrite bool_decide_eq_true_2 by eauto. rewrite E.
      now rewrite join_cubes_config.
    + rewrite bool_decide_eq_false_2 by now intros [? [=]].
      now rewrite join_cubes_config.
Qed.

Lemma C7_resolved_path_witness :
  __init__ (Some "/etc/olapy/cube.yml") Examples.world_with_config
  = (Ok (mkConfigParser "/etc/olapy/cube.yml"), Examples.world_with_config)
  /\ __init__ None
       (mkWorld {[ "OLAPY_PATH" := "/srv/" ]} "/home/olapy" ∅)
     = (Ok (mkConfigParser "/srv/olapy-data/cubes/cubes-config.yml"),
        mkWorld {[ "OLAPY_PATH" := "/srv/" ]} "/home/olapy" ∅).
Proof.
  split.
  - destruct (C7_resolved_path (Some "/etc/olapy/cube.yml")
                Examples.world_with_config) as [Hverbatim _].
    apply Hverbatim; [reflexivity | discriminate].
  - destruct (C7_resolved_path None
                (mkWorld {[ "OLAPY_PATH" := "/srv/" ]} "/home/olapy" ∅))
      as [_ Hdefault].
    apply Hdefault. now left.
Defined.

(** ** The columns of a dimension *)

Lemma get_dimension_columns_order entry dim :
  get_dimension entry = Ok dim -> columns_in_declared_order entry dim.
Proof.
  intros H d raw cols Hd Hraw Hcols.
  apply get_dimension_Ok in H as (_ & _ & _ & _ & _ & _ & H & _).
  destruct (dimension_columns_declared _ _ _ _ _ Hd Hraw Hcols H)
    as (ps & Hps & _ & Hdict).
  exists ps. rewrite Hdict. repeat split.
  - apply list_comprehension_Ok in Hps.
    eapply Forall2_impl; [exact Hps |].
    intros column p Hp. split; [trivial | now apply column_pair_Ok in Hp].
  - apply dict_update_keys.
  - destruct (add_keys_sublist (map fst ps) []) as (ks & Hks & Hs).
    rewrite dict_update_keys. cbn [map]. now rewrite Hks.
  - intros Hdist. now apply (dict_update_distinct ps []).
Qed.

(** C4: in every successfully loaded document, the columns mapping of each
    dimension enumerates its entries in the order in which the columns are
    declared in the document. *)
Theorem C4_columns_keep_declaration_order
  (yaml_load : string -> result pyval) (self : ConfigParser)
  (conf_file : option string) (w : world) (cube : Cube) :
  fst (get_cube_config yaml_load self conf_file w) = Ok cube ->
  exists text config raw entries,
    fs w !! file_path self conf_file = Some (RegularFile true text)
    /\ yaml_load text = Ok config
    /\ getitem config "dimensions" = Ok raw
    /\ iter raw = Ok entries
    /\ Forall2 columns_in_declared_order entries (dimensions cube).
Proof.
  intros H.
  apply get_cube_config_Ok in H as (text & config & Hfile & Hparse & H).
  apply cube_of_config_Ok in H as (fs & ds & x & n & s & _ & Hds & _ & _ & _ & ->).
  apply get_dimensions_Ok in Hds as (raw & entries & Hraw & Hit & Hall).
  exists text, config, raw, entries. repeat split; trivial. simpl.
  eapply Forall2_impl; [exact Hall |].
  intros entry dim. apply get_dimension_columns_order.
Qed.

Lemma C4_columns_keep_declaration_order_witness :
  exists text config raw entries,
    fs Examples.world_with_config !! Examples.config_path
    = Some (RegularFile true text)
    /\ Examples.parses_to Examples.scenario_A text = Ok config
    /\ getitem config "dimensions" = Ok raw
    /\ iter raw = Ok entries
    /\ Forall2 columns_in_declared_order entries
         [mkDimension (PyStr "orgunit") (PyStr "Organisation")
            [(PyStr "type", PyStr "type"); (PyStr "nom", PyStr "nom")]].
Proof.
  apply (C4_columns_keep_declaration_order
           (Examples.parses_to Examples.scenario_A)
           (mkConfigParser Examples.config_path) None
           Examples.world_with_config
           (mkCube false (PyStr "labster") (PyStr "csv")
              [mkFacts (PyStr "stats_line")
                 [(PyStr "departement_id", PyStr "orgunit.id")]
                 (PyList [PyStr "montant"; PyStr "salaire_brut_mensuel"])]
              [mkDimension (PyStr "orgunit") (PyStr "Organisation")
                 [(PyStr "type", PyStr "type"); (PyStr "nom", PyStr "nom")]])).
  vm_compute. reflexivity.
Defined.




(** ** The keys mapping of the facts *)

Lemma combine_lookup {A B} (xs : list A) : forall (ys : list B) i x y,
  combine xs ys !! i = Some (x, y) <-> xs !! i = Some x /\ ys !! i = Some y.
Proof.
  induction xs as [|a xs IH]; intros [|b ys] i x y; simpl.
  - split; [discriminate | now intros [? ?]].
  - split; [discriminate | now intros [? ?]].
  - split; [discriminate | now intros [? ?]; destruct i].
  - destruct i as [|i]; simpl.
    + split; [now intros [= -> ->] | now intros [[= ->] [= ->]]].
    + apply IH.
Qed.

Lemma combine_keys_same_length {A B} (xs : list A) : forall (ys : list B),
  length xs = length ys -> map fst (combine xs ys) = xs.
Proof.
  induction xs as [|a xs IH]; intros [|b ys]; simpl; try discriminate; trivial.
  intros [= H]. now rewrite IH.
Qed.

(** C6: in every successfully loaded document the keys mapping of the one
    facts descriptor pairs the declared key columns with the declared
    references position for position: it is the dictionary that receives the
    pairs of [zip] one by one, so the name at a position is mapped to the
    reference at the same position (the last such position, should a name be
    declared more than once), and with distinct names and as many references
    the mapping is the sequence of the pairs; for the document of
    scenario A the keys are [{departement_id: "orgunit.id"}] and the columns
    of the dimension are [{type: type, nom: nom}], in that order. *)
Theorem C6_keys_position_for_position :
  (forall yaml_load self conf_file w cube,
      fst (get_cube_config yaml_load self conf_file w) = Ok cube ->
      exists text config ns rs fct,
        fs w !! file_path self conf_file = Some (RegularFile true text)
        /\ yaml_load text = Ok config
        /\ declared_keys config = Ok (ns, rs)
        /\ facts cube = [fct]
        /\ keys fct = dict_update [] (combine ns rs)
        /\ (forall i k v,
              ns !! i = Some k -> rs !! i = Some v ->
              (forall j k', i < j -> j < length rs -> ns !! j = Some k' ->
                            key_eqb k' k = false) ->
              dict_get (keys fct) k = Some v)
        /\ (length ns = length rs -> distinct_keys ns = true ->
            keys fct = combine ns rs))
  /\ get_cube_config (Examples.parses_to Examples.scenario_A)
       (mkConfigParser Examples.config_path) None Examples.world_with_config
     = (Ok (mkCube false (PyStr "labster") (PyStr "csv")
              [mkFacts (PyStr "stats_line")
                 [(PyStr "departement_id", PyStr "orgunit.id")]
                 (PyList [PyStr "montant"; PyStr "salaire_brut_mensuel"])]
              [mkDimension (PyStr "orgunit") (PyStr "Organisation")
                 [(PyStr "type", PyStr "type"); (PyStr "nom", PyStr "nom")]]),
        Examples.world_with_config).
Proof.
  split; [| vm_compute; reflexivity].
  intros yaml_load self conf_file w cube H.
  apply get_cube_config_Ok in H as (text & config & Hfile & Hparse & H).
  apply cube_of_config_Ok in H as (fs & ds & x & n & s & Hf & _ & _ & _ & _ & ->).
  apply get_facts_Ok in Hf as (f & t & ks & ms & _ & _ & Hks & _ & ->).
  apply facts_keys_declared in Hks as (ns & rs & Hdecl & Hh & ->).
  exists text, config, ns, rs, (mkFacts t (dict_update [] (combine ns rs)) ms).
  repeat split; trivial; simpl.
  - intros i k v Hk Hv Hlast.
    apply (dict_get_update_last (combine ns rs) [] i k v).
    + now apply combine_lookup.
    + rewrite Forall_forall in Hh. apply (Hh (k, v)).
      apply list_elem_of_lookup. exists i. now apply combine_lookup.
    + intros j [k' v'] Hij Hj. apply combine_lookup in Hj as [Hk' Hv'].
      apply (Hlast j k'); trivial. now apply lookup_lt_Some in Hv'.
  - intros Hlen Hdist. apply (dict_update_distinct (combine ns rs) []).
    simpl. now rewrite combine_keys_same_length.
Qed.

Lemma C6_keys_position_for_position_witness :
  exists text config ns rs fct,
    fs Examples.world_with_config !! Examples.config_path
    = Some (RegularFile true text)
    /\ Examples.parses_to Examples.scenario_A text = Ok config
    /\ declared_keys config = Ok (ns, rs)
    /\ [mkFacts (PyStr "stats_line")
          [(PyStr "departement_id", PyStr "orgunit.id")]
          (PyList [PyStr "montant"; PyStr "salaire_brut_mensuel"])] = [fct]
    /\ keys fct = dict_update [] (combine ns rs)
    /\ (forall i k v,
          ns !! i = Some k -> rs !! i = Some v ->
          (forall j k', i < j -> j < length rs -> ns !! j = Some k' ->
                        key_eqb k' k = false) ->
          dict_get (keys fct) k = Some v)
    /\ (length ns = length rs -> distinct_keys ns = true ->
        keys fct = combine ns rs).
Proof.
  destruct C6_keys_position_for_position as [Hpairs _].
  apply (Hpairs (Examples.parses_to Examples.scenario_A)
           (mkConfigParser Examples.config_path) None
           Examples.world_with_config
           (mkCube false (PyStr "labster") (PyStr "csv")
              [mkFacts (PyStr "stats_line")
                 [(PyStr "departement_id", PyStr "orgunit.id")]
                 (PyList [PyStr "montant"; PyStr "salaire_brut_mensuel"])]
              [mkDimension (PyStr "orgunit") (PyStr "Organisation")
                 [(PyStr "type", PyStr "type"); (PyStr "nom", PyStr "nom")]])).
  vm_compute. reflexivity.
Defined.

(** ** Further properties of the loader *)

(** *** Which file a call opens *)

(** X1: a non-empty [conf_file] replaces the path of the instance for the
    call: the outcome does not depend on the instance, and is the outcome of
    a call without argument on an instance holding that path; an empty
    [conf_file] is a call without argument. *)
Theorem X1_conf_file_overrides_instance
  (yaml_load : string -> result pyval) (self other : ConfigParser)
  (p : string) (w : world) :
  p <> "" ->
  get_cube_config yaml_load self (Some p) w
  = get_cube_config yaml_load other (Some p) w
  /\ get_cube_config yaml_load self (Some p) w
     = get_cube_config yaml_load (mkConfigParser p) None w
  /\ get_cube_config yaml_load self (Some "") w
     = get_cube_config yaml_load self None w.
Proof.
  intros Hp. apply String.eqb_neq in Hp.
  unfold get_cube_config, file_path, given. rewrite Hp. simpl.
  repeat split.
Qed.

Lemma X1_conf_file_overrides_instance_witness :
  get_cube_config (Examples.parses_to Examples.scenario_A)
    (mkConfigParser "/nowhere/cubes-config.yml") (Some Examples.config_path)
    Examples.world_with_config
  = get_cube_config (Examples.parses_to Examples.scenario_A)
      (mkConfigParser Examples.config_path) None Examples.world_with_config.
Proof.
  destruct (X1_conf_file_overrides_instance
              (Examples.parses_to Examples.scenario_A)
              (mkConfigParser "/nowhere/cubes-config.yml")
              (mkConfigParser "/nowhere/cubes-config.yml")
              Examples.config_path Examples.world_with_config)
    as (_ & Hsame & _); [discriminate | exact Hsame].
Defined.

Lemma append_empty (s t : string) : (s ++ t)%string = "" -> t = "".
Proof. destruct s; [trivial | discriminate]. Qed.

Lemma join_cubes_config_nonempty (base : string) :
  join base ["olapy-data"; "cubes"; "cubes-config.yml"] <> "".
Proof.
  rewrite join_cubes_config. intros H.
  apply append_empty in H. apply append_empty in H. discriminate.
Qed.

(** X2: constructing a parser never raises and changes nothing, and the path
    it holds is never empty; hence a call of [get_cube_config] without
    argument on the constructed parser opens exactly that path. *)
Theorem X2_constructed_path_nonempty (arg : option string) (w : world) :
  exists self,
    __init__ arg w = (Ok self, w)
    /\ cube_config_file self <> ""
    /\ forall yaml_load,
         get_cube_config yaml_load self None w
         = get_cube_config yaml_load self (Some (cube_config_file self)) w.
Proof.
  assert (Hcall : forall self yaml_load,
             cube_config_file self <> "" ->
             get_cube_config yaml_load self None w
             = get_cube_config yaml_load self (Some (cube_config_file self)) w).
  { intros self yaml_load Hne. apply String.eqb_neq in Hne.
    unfold get_cube_config, file_path, given. now rewrite Hne. }
  unfold __init__. destruct (given arg) eqn:Hgiven.
  - destruct arg as [p|]; [|discriminate]. simpl in Hgiven.
    apply negb_true_iff, String.eqb_neq in Hgiven.
    exists (mkConfigParser p). repeat split; auto.
  - unfold _get_cube_path, io_bind, environ_contains, environ_get,
      expanduser_home, io_ret.
    destruct (environ w !! "OLAPY_PATH") as [v|] eqn:E.
    + rewrite bool_decide_eq_true_2 by eauto. rewrite E.
      eexists. repeat split; [|intros; apply Hcall];
        apply join_cubes_config_nonempty.
    + rewrite bool_decide_eq_false_2 by now intros [? [=]].
      eexists. repeat split; [|intros; apply Hcall];
        apply join_cubes_config_nonempty.
Qed.

(** *** Asking first, loading next *)

(** X3: an answer [True] of [config_file_exists] is no promise that the
    load will succeed.  On a regular file that may not be read, on a file
    whose text [yaml.load] rejects, and on a document from which the
    extraction fails, the answer is [True] and a call of [get_cube_config]
    without argument raises: the [IOError] of the refused access, the
    exception of [yaml.load], the exception of the extraction.  Where
    nothing is found at the path the answer is [False] and the call raises
    the error of [open]. *)
Theorem X3_exists_and_load
  (yaml_load : string -> result pyval) (self : ConfigParser) (w : world) :
  let p := cube_config_file self in
  let answer := fst (config_file_exists self w) in
  let outcome := fst (get_cube_config yaml_load self None w) in
  (forall text,
      fs w !! p = Some (RegularFile false text) ->
      answer = Ok true /\ outcome = Raise (IOError EACCES p))
  /\ (forall text e,
        fs w !! p = Some (RegularFile true text) ->
        yaml_load text = Raise e ->
        answer = Ok true /\ outcome = Raise e)
  /\ (forall text config e,
        fs w !! p = Some (RegularFile true text) ->
        yaml_load text = Ok config ->
        cube_of_config config = Raise e ->
        answer = Ok true /\ outcome = Raise e)
  /\ (fs w !! p = None ->
      answer = Ok false
      /\ exists e, outcome = Raise e
                   /\ if has_nul p then e = ValueError
                      else exists code, e = IOError code p).
Proof.
  intros p answer outcome.
  assert (Hpath : file_path self None = p) by reflexivity.
  unfold answer, outcome, config_file_exists, isfile. fold p.
  repeat split.
  - now rewrite H.
  - rewrite (get_cube_config_unopened _ _ _ _ (IOError EACCES p)); trivial.
    rewrite Hpath. unfold read_file. now rewrite H.
  - now rewrite H.
  - rewrite (get_cube_config_readable _ _ _ _ text), H0 by now rewrite Hpath.
    reflexivity.
  - now rewrite H.
  - rewrite (get_cube_config_readable _ _ _ _ text), H0 by now rewrite Hpath.
    simpl. exact H1.
  - now rewrite H.
  - exists (open_error w p). split.
    + rewrite (get_cube_config_unopened _ _ _ _ (open_error w p)); trivial.
      rewrite Hpath. unfold read_file. now rewrite H.
    + unfold open_error. destruct (has_nul p); eauto.
Qed.

Lemma X3_exists_and_load_witness :
  fst (config_file_exists (mkConfigParser "/srv/secret.yml")
         (mkWorld ∅ "/home/olapy"
            {[ "/srv/secret.yml" := RegularFile false "cube" ]}))
  = Ok true
  /\ fst (get_cube_config (Examples.parses_to Examples.scenario_A)
            (mkConfigParser "/srv/secret.yml") None
            (mkWorld ∅ "/home/olapy"
               {[ "/srv/secret.yml" := RegularFile false "cube" ]}))
     = Raise (IOError EACCES "/srv/secret.yml").
Proof.
  destruct (X3_exists_and_load (Examples.parses_to Examples.scenario_A)
              (mkConfigParser "/srv/secret.yml")
              (mkWorld ∅ "/home/olapy"
                 {[ "/srv/secret.yml" := RegularFile false "cube" ]}))
    as (Hunreadable & _).
  apply (Hunreadable "cube"). reflexivity.
Defined.

(** *** What the descriptor takes from the document *)

Lemma falsy_not_truthy (x : pyval) : falsy x -> truthy x = false.
Proof.
  intros [-> | [-> | [-> | [-> | [-> | ->]]]]]; reflexivity.
Qed.

(** X4: the flag [xmla_authentication] of the descriptor is the truth value
    Python gives to the value in the document, not that value.  It is
    [False] for [None], [False], [0], the empty string, the empty list and
    the empty mapping; it is [True] for [True], for every other integer, and
    for every non-empty string, list or mapping, so that any text, the
    string ['False'] included, switches authentication on. *)
Theorem X4_xmla_authentication_is_truthiness
  (yaml_load : string -> result pyval) (self : ConfigParser)
  (conf_file : option string) (w : world) (cube : Cube) :
  fst (get_cube_config yaml_load self conf_file w) = Ok cube ->
  exists text config x,
    fs w !! file_path self conf_file = Some (RegularFile true text)
    /\ yaml_load text = Ok config
    /\ getitem config "xmla_authentication" = Ok x
    /\ (falsy x -> xmla_authentication cube = false)
    /\ (x = PyBool true -> xmla_authentication cube = true)
    /\ (forall z, x = PyInt z -> z <> 0%Z -> xmla_authentication cube = true)
    /\ (forall s, x = PyStr s -> s <> "" -> xmla_authentication cube = true)
    /\ (forall l, x = PyList l -> l <> [] -> xmla_authentication cube = true)
    /\ (forall d, x = PyDict d -> d <> [] -> xmla_authentication cube = true).
Proof.
  intros H.
  apply get_cube_config_Ok in H as (text & config & Hfile & Hparse & H).
  apply cube_of_config_Ok in H as (fs & ds & x & n & s & _ & _ & Hx & _ & _ & ->).
  exists text, config, x. repeat split; trivial; simpl.
  - apply falsy_not_truthy.
  - now intros ->.
  - intros z -> Hz. simpl. now apply negb_true_iff, Z.eqb_neq.
  - intros s' -> Hs. simpl. now apply negb_true_iff, String.eqb_neq.
  - intros l -> Hl. simpl. now rewrite bool_decide_eq_false_2.
  - intros d -> Hd. simpl. now rewrite bool_decide_eq_false_2.
Qed.

Lemma X4_xmla_authentication_is_truthiness_witness :
  exists text config x,
    fs Examples.world_with_config !! Examples.config_path
    = Some (RegularFile true text)
    /\ Examples.parses_to
         (Examples.mapping
            [("xmla_authentication", PyStr "False");
             ("name", PyStr "labster"); ("source", PyStr "csv");
             ("facts", Examples.facts_section ["departement_id"] ["orgunit.id"]);
             ("dimensions", PyList [])]) text = Ok config
    /\ getitem config "xmla_authentication" = Ok x
    /\ (falsy x -> true = false)
    /\ (x = PyBool true -> true = true)
    /\ (forall z, x = PyInt z -> z <> 0%Z -> true = true)
    /\ (forall s, x = PyStr s -> s <> "" -> true = true)
    /\ (forall l, x = PyList l -> l <> [] -> true = true)
    /\ (forall d, x = PyDict d -> d <> [] -> true = true).
Proof.
  apply (X4_xmla_authentication_is_truthiness
           (Examples.parses_to
              (Examples.mapping
                 [("xmla_authentication", PyStr "False");
                  ("name", PyStr "labster"); ("source", PyStr "csv");
                  ("facts",
                   Examples.facts_section ["departement_id"] ["orgunit.id"]);
                  ("dimensions", PyList [])]))
           (mkConfigParser Examples.config_path) None
           Examples.world_with_config
           (mkCube true (PyStr "labster") (PyStr "csv")
              [mkFacts (PyStr "stats_line")
                 [(PyStr "departement_id", PyStr "orgunit.id")]
                 (PyList [PyStr "montant"; PyStr "salaire_brut_mensuel"])]
              [])).
  vm_compute. reflexivity.
Defined.

(** X5: the other fields are taken over as they stand: name and source of
    the cube, table name and measures of the facts, and for each entry under
    [dimensions], in the order of the document, one descriptor with the name
    and the display name of that entry; nothing is converted or checked. *)
Theorem X5_fields_taken_verbatim
  (yaml_load : string -> result pyval) (self : ConfigParser)
  (conf_file : option string) (w : world) (cube : Cube) :
  fst (get_cube_config yaml_load self conf_file w) = Ok cube ->
  exists text config f fct raw entries,
    fs w !! file_path self conf_file = Some (RegularFile true text)
    /\ yaml_load text = Ok config
    /\ getitem config "name" = Ok (cube_name cube)
    /\ getitem config "source" = Ok (source cube)
    /\ getitem config "facts" = Ok f
    /\ facts cube = [fct]
    /\ getitem f "table_name" = Ok (table_name fct)
    /\ getitem f "measures" = Ok (measures fct)
    /\ getitem config "dimensions" = Ok raw
    /\ iter raw = Ok entries
    /\ length (dimensions cube) = length entries
    /\ (forall i entry dim,
          entries !! i = Some entry -> dimensions cube !! i = Some dim ->
          exists d, getitem entry "dimension" = Ok d
                    /\ getitem d "name" = Ok (dim_name dim)
                    /\ getitem d "displayName" = Ok (displayName dim)).
Proof.
  intros H.
  apply get_cube_config_Ok in H as (text & config & Hfile & Hparse & H).
  apply cube_of_config_Ok in H as (fs & ds & x & n & s & Hf & Hds & _ & Hn & Hs & ->).
  apply get_facts_Ok in Hf as (f & t & ks & ms & Hf & Ht & _ & Hms & ->).
  apply get_dimensions_Ok in Hds as (raw & entries & Hraw & Hit & Hall).
  exists text, config, f, (mkFacts t ks ms), raw, entries.
  repeat split; trivial; simpl.
  - symmetry. now apply Forall2_length in Hall.
  - intros i entry dim Hi Hd.
    pose proof (Forall2_lookup_lr _ _ _ _ _ _ Hall Hi Hd) as He.
    apply get_dimension_Ok in He as (d & n' & dn & Hd' & Hn' & Hdn & _ & <- & <-).
    eauto.
Qed.

Lemma X5_fields_taken_verbatim_witness :
  length
    (dimensions
       (mkCube false (PyStr "labster") (PyStr "csv")
          [mkFacts (PyStr "stats_line")
             [(PyStr "departement_id", PyStr "orgunit.id")]
             (PyList [PyStr "montant"; PyStr "salaire_brut_mensuel"])]
          [mkDimension (PyStr "orgunit") (PyStr "Organisation")
             [(PyStr "type", PyStr "type"); (PyStr "nom", PyStr "nom")]]))
  = 1.
Proof.
  destruct (X5_fields_taken_verbatim
              (Examples.parses_to Examples.scenario_A)
              (mkConfigParser Examples.config_path) None
              Examples.world_with_config
              (mkCube false (PyStr "labster") (PyStr "csv")
                 [mkFacts (PyStr "stats_line")
                    [(PyStr "departement_id", PyStr "orgunit.id")]
                    (PyList [PyStr "montant"; PyStr "salaire_brut_mensuel"])]
                 [mkDimension (PyStr "orgunit") (PyStr "Organisation")
                    [(PyStr "type", PyStr "type"); (PyStr "nom", PyStr "nom")]])
              eq_refl)
    as (text & config & f & fct & raw & entries & Hfile & Hparse
        & _ & _ & _ & _ & _ & _ & Hraw & Hit & Hlen & _).
  rewrite Hlen.
  vm_compute in Hfile. injection Hfile as <-.
  vm_compute in Hparse. injection Hparse as <-.
  vm_compute in Hraw. injection Hraw as <-.
  vm_compute in Hit. injection Hit as <-.
  reflexivity.
Defined.

(** *** Values that are not checked *)

Lemma getitem_dict_set_same d k v :
  getitem (PyDict (dict_set d (PyStr k) v)) k = Ok v.
Proof. simpl. now rewrite dict_get_set_eq. Qed.

Lemma getitem_dict_set_other d k k' v :
  k <> k' ->
  getitem (PyDict (dict_set d (PyStr k) v)) k' = getitem (PyDict d) k'.
Proof.
  intros Hne. simpl. rewrite dict_get_set_ne; trivial.
  simpl. now apply String.eqb_neq.
Qed.

(** The facts are read from [config['facts']] alone. *)
Lemma get_facts_ext c1 c2 :
  getitem c1 "facts" = getitem c2 "facts" -> get_facts c1 = get_facts c2.
Proof. intros H. unfold get_facts, facts_keys. now rewrite H. Qed.

(** The dimensions are read from [config['dimensions']] alone. *)
Lemma get_dimensions_ext c1 c2 :
  getitem c1 "dimensions" = getitem c2 "dimensions" ->
  get_dimensions c1 = get_dimensions c2.
Proof. intros H. unfold get_dimensions. now rewrite H. Qed.

(** X6: neither [source] nor [name] is validated: in a document that loads,
    either may be replaced by any value whatever (a source outside the
    listed kinds, a number, a list) and the document still loads, to the
    same descriptor but for that field. *)
Theorem X6_source_and_name_unchecked (d : dict) (cube : Cube) (v : pyval) :
  cube_of_config (PyDict d) = Ok cube ->
  cube_of_config (PyDict (dict_set d (PyStr "source") v))
  = Ok (mkCube (xmla_authentication cube) (cube_name cube) v
          (facts cube) (dimensions cube))
  /\ cube_of_config (PyDict (dict_set d (PyStr "name") v))
     = Ok (mkCube (xmla_authentication cube) v (source cube)
             (facts cube) (dimensions cube)).
Proof.
  intros H.
  apply cube_of_config_Ok in H as (fs & ds & x & n & s & Hf & Hd & Hx & Hn & Hs & ->).
  split; unfold cube_of_config.
  - rewrite (get_facts_ext _ (PyDict d)), Hf
      by (now apply getitem_dict_set_other).
    cbn [bind].
    rewrite (get_dimensions_ext _ (PyDict d)), Hd
      by (now apply getitem_dict_set_other).
    cbn [bind].
    rewrite !getitem_dict_set_other by discriminate.
    rewrite Hx. cbn [bind]. rewrite Hn. cbn [bind].
    now rewrite getitem_dict_set_same.
  - rewrite (get_facts_ext _ (PyDict d)), Hf
      by (now apply getitem_dict_set_other).
    cbn [bind].
    rewrite (get_dimensions_ext _ (PyDict d)), Hd
      by (now apply getitem_dict_set_other).
    cbn [bind].
    rewrite (getitem_dict_set_other d "name" "xmla_authentication")
      by discriminate.
    rewrite Hx. cbn [bind]. rewrite getitem_dict_set_same. cbn [bind].
    rewrite getitem_dict_set_other by discriminate.
    now rewrite Hs.
Qed.

Lemma X6_source_and_name_unchecked_witness :
  cube_of_config
    (PyDict
       (dict_set
          [(PyStr "xmla_authentication", PyBool false);
           (PyStr "name", PyStr "labster"); (PyStr "source", PyStr "csv");
           (PyStr "facts",
            Examples.facts_section ["departement_id"] ["orgunit.id"]);
           (PyStr "dimensions", PyList [])]
          (PyStr "source") (PyInt 7)))
  = Ok (mkCube false (PyStr "labster") (PyInt 7)
          [mkFacts (PyStr "stats_line")
             [(PyStr "departement_id", PyStr "orgunit.id")]
             (PyList [PyStr "montant"; PyStr "salaire_brut_mensuel"])]
          []).
Proof.
  apply (X6_source_and_name_unchecked
           [(PyStr "xmla_authentication", PyBool false);
            (PyStr "name", PyStr "labster"); (PyStr "source", PyStr "csv");
            (PyStr "facts",
             Examples.facts_section ["departement_id"] ["orgunit.id"]);
            (PyStr "dimensions", PyList [])]
           (mkCube false (PyStr "labster") (PyStr "csv")
              [mkFacts (PyStr "stats_line")
                 [(PyStr "departement_id", PyStr "orgunit.id")]
                 (PyList [PyStr "montant"; PyStr "salaire_brut_mensuel"])]
              [])
           (PyInt 7)).
  reflexivity.
Defined.

(** *** The exceptions a load can end with *)

Lemma bind_Raise_inv {A B} (m : result A) (k : A -> result B) (e : exn) :
  bind m k = Raise e -> m = Raise e \/ exists a, m = Ok a /\ k a = Raise e.
Proof. destruct m as [a|e']; simpl; [eauto | intros [= ->]; auto]. Qed.

(** Splits the first [bind] of a computation [H] that raised. *)
Ltac raise_inv H :=
  let a := fresh "a" in
  let Ha := fresh "E" in
  apply bind_Raise_inv in H as [H | (a & Ha & H)].

Lemma getitem_Raise v k e :
  getitem v k = Raise e -> e = KeyError k \/ exists why, e = TypeError why.
Proof.
  destruct v; simpl; try (intros [= <-]; eauto).
  destruct (dict_get entries (PyStr k)); [discriminate | intros [= <-]; auto].
Qed.

Lemma getitem_schema_error v k e :
  In k schema_keys -> getitem v k = Raise e -> schema_error e.
Proof.
  intros Hk H. apply getitem_Raise in H as [-> | H]; [left | right]; eauto.
Qed.

Lemma iter_schema_error v e : iter v = Raise e -> schema_error e.
Proof. destruct v; simpl; try discriminate; intros [= <-]; right; eauto. Qed.

Lemma contains_schema_error k v e : contains k v = Raise e -> schema_error e.
Proof. destruct v; simpl; try discriminate; intros [= <-]; right; eauto. Qed.

(** A subscript whose key passed the [in] test raises no [KeyError]. *)
Lemma guarded_getitem_schema_error k v e :
  contains k v = Ok true -> getitem v k = Raise e -> schema_error e.
Proof.
  destruct v; simpl; try discriminate; try (intros _ [= <-]; right; eauto).
  intros [= H]. apply bool_decide_eq_true in H as [x Hx]. now rewrite Hx.
Qed.

Lemma list_comprehension_Raise_inv {A B} (f : A -> result B) xs e :
  list_comprehension f xs = Raise e -> exists x, In x xs /\ f x = Raise e.
Proof.
  induction xs as [|x r IH]; simpl; [discriminate |]. intros H.
  raise_inv H; [eauto |]. raise_inv H; [|discriminate].
  destruct (IH H) as (y & Hy & Hf). eauto.
Qed.

Lemma dict_of_generator_Raise {A} (f : A -> result (pyval * pyval)) xs e :
  forall d,
  dict_of_generator f xs d = Raise e ->
  (exists x, In x xs /\ f x = Raise e) \/ e = TypeError Unhashable.
Proof.
  induction xs as [|x r IH]; simpl; intros d H; [discriminate |].
  raise_inv H; [left; eauto |].
  destruct (hashable (fst a)).
  - destruct (IH _ H) as [(y & Hy & Hf) | ->]; [left; eauto | now right].
  - injection H as <-. now right.
Qed.

Ltac schema_key := simpl; tauto.

Lemma column_pair_schema_error column e :
  column_pair column = Raise e -> schema_error e.
Proof.
  unfold column_pair. intros H. raise_inv H.
  { eapply getitem_schema_error; [|exact H]. schema_key. }
  raise_inv H. { eapply contains_schema_error; eauto. }
  raise_inv H; [|discriminate].
  destruct a0; simpl in H.
  - eapply guarded_getitem_schema_error; eauto.
  - eapply getitem_schema_error; [|exact H]. schema_key.
Qed.

Lemma dimension_columns_schema_error dimension e :
  dimension_columns dimension = Raise e -> schema_error e.
Proof.
  unfold dimension_columns. intros H. raise_inv H.
  { eapply getitem_schema_error; [|exact H]. schema_key. }
  raise_inv H. { eapply contains_schema_error; eauto. }
  destruct a0; [|discriminate].
  raise_inv H. { eapply getitem_schema_error; [|exact H]. schema_key. }
  rewrite E in E1. injection E1 as <-.
  raise_inv H. { eapply guarded_getitem_schema_error; eauto. }
  raise_inv H. { eapply iter_schema_error; eauto. }
  apply dict_of_generator_Raise in H as [(c & _ & H) | ->].
  - eapply column_pair_schema_error; eauto.
  - right. eauto.
Qed.

Lemma get_dimension_schema_error dimension e :
  get_dimension dimension = Raise e -> schema_error e.
Proof.
  unfold get_dimension. intros H.
  raise_inv H. { eapply getitem_schema_error; [|exact H]. schema_key. }
  raise_inv H. { eapply getitem_schema_error; [|exact H]. schema_key. }
  raise_inv H. { eapply getitem_schema_error; [|exact H]. schema_key. }
  raise_inv H. { eapply getitem_schema_error; [|exact H]. schema_key. }
  raise_inv H; [|discriminate].
  eapply dimension_columns_schema_error; eauto.
Qed.

Lemma get_dimensions_schema_error config e :
  get_dimensions config = Raise e -> schema_error e.
Proof.
  unfold get_dimensions. intros H.
  raise_inv H. { eapply getitem_schema_error; [|exact H]. schema_key. }
  raise_inv H. { eapply iter_schema_error; eauto. }
  apply list_comprehension_Raise_inv in H as (x & _ & H).
  eapply get_dimension_schema_error; eauto.
Qed.

Lemma facts_keys_schema_error config e :
  facts_keys config = Raise e -> schema_error e.
Proof.
  unfold facts_keys, zip. intros H.
  raise_inv H. { eapply getitem_schema_error; [|exact H]. schema_key. }
  raise_inv H. { eapply getitem_schema_error; [|exact H]. schema_key. }
  raise_inv H. { eapply getitem_schema_error; [|exact H]. schema_key. }
  raise_inv H. { eapply getitem_schema_error; [|exact H]. schema_key. }
  raise_inv H. { eapply getitem_schema_error; [|exact H]. schema_key. }
  raise_inv H. { eapply getitem_schema_error; [|exact H]. schema_key. }
  raise_inv H.
  { raise_inv H. { eapply iter_schema_error; eauto. }
    raise_inv H; [|discriminate]. eapply iter_schema_error; eauto. }
  apply dict_of_generator_Raise in H as [(c & _ & H) | ->];
    [discriminate | right; eauto].
Qed.

Lemma get_facts_schema_error config e :
  get_facts config = Raise e -> schema_error e.
Proof.
  unfold get_facts. intros H.
  raise_inv H. { eapply getitem_schema_error; [|exact H]. schema_key. }
  raise_inv H. { eapply getitem_schema_error; [|exact H]. schema_key. }
  raise_inv H. { eapply facts_keys_schema_error; eauto. }
  raise_inv H. { eapply getitem_schema_error; [|exact H]. schema_key. }
  raise_inv H; [|discriminate].
  eapply getitem_schema_error; [|exact H]. schema_key.
Qed.

Lemma cube_of_config_schema_error config e :
  cube_of_config config = Raise e -> schema_error e.
Proof.
  unfold cube_of_config. intros H.
  raise_inv H. { eapply get_facts_schema_error; eauto. }
  raise_inv H. { eapply get_dimensions_schema_error; eauto. }
  raise_inv H. { eapply getitem_schema_error; [|exact H]. schema_key. }
  raise_inv H. { eapply getitem_schema_error; [|exact H]. schema_key. }
  raise_inv H; [|discriminate].
  eapply getitem_schema_error; [|exact H]. schema_key.
Qed.

(** X7: once the file has been opened, an exception of [get_cube_config]
    is what [yaml.load] raised on the text of the file, or it comes from the
    extraction, and then it is a [TypeError] or the [KeyError] of one of the
    keys the loader subscripts without a test; the two optional keys,
    [columns] and [column_new_name], are only read behind an [in] test and
    are never the key of a [KeyError]. *)
Theorem X7_exceptions_of_a_load
  (yaml_load : string -> result pyval) (self : ConfigParser)
  (conf_file : option string) (w : world) (text : string) (e : exn) :
  fs w !! file_path self conf_file = Some (RegularFile true text) ->
  fst (get_cube_config yaml_load self conf_file w) = Raise e ->
  yaml_load text = Raise e
  \/ exists config,
       yaml_load text = Ok config
       /\ cube_of_config config = Raise e
       /\ schema_error e
       /\ e <> KeyError "columns"
       /\ e <> KeyError "column_new_name".
Proof.
  intros Hfile. rewrite (get_cube_config_readable _ _ _ _ _ Hfile). simpl.
  destruct (yaml_load text) as [config|e'] eqn:Hparse; simpl.
  - intros H. right. exists config. repeat split; trivial.
    + now apply cube_of_config_schema_error in H.
    + intros ->. apply cube_of_config_schema_error in H as [(k & [= <-] & Hk) | (? & [=])].
      simpl in Hk. repeat (destruct Hk as [[=] | Hk]). exact Hk.
    + intros ->. apply cube_of_config_schema_error in H as [(k & [= <-] & Hk) | (? & [=])].
      simpl in Hk. repeat (destruct Hk as [[=] | Hk]). exact Hk.
  - intros [= <-]. now left.
Qed.

Lemma X7_exceptions_of_a_load_witness :
  fst (get_cube_config (Examples.parses_to Examples.scenario_C)
         (mkConfigParser Examples.config_path) None
         Examples.world_with_config)
  = Raise (KeyError "dimensions")
  /\ schema_error (KeyError "dimensions").
Proof.
  split; [reflexivity |].
  destruct (X7_exceptions_of_a_load
              (Examples.parses_to Examples.scenario_C)
              (mkConfigParser Examples.config_path) None
              Examples.world_with_config "cube" (KeyError "dimensions")
              eq_refl eq_refl)
    as [Hparse | (config & _ & _ & Hschema & _)].
  - discriminate Hparse.
  - exact Hschema.
Defined.

(** *** Names that cannot be keys *)

Lemma combine_keys_take {A B} (xs : list A) : forall (ys : list B),
  map fst (combine xs ys) = take (length ys) xs.
Proof.
  induction xs as [|x xs IH]; intros [|y ys]; simpl; trivial.
  now rewrite IH.
Qed.

Lemma dict_of_generator_pairs ps : forall d,
  dict_of_generator Ok ps d
  = if forallb hashable (map fst ps) then Ok (dict_update d ps)
    else Raise (TypeError Unhashable).
Proof.
  induction ps as [|[k v] r IH]; intros d; simpl; trivial.
  destruct (hashable k); simpl; [apply IH | trivial].
Qed.

(** X8: building the keys mapping fails only on a name that cannot be
    hashed (a list or a mapping where a column name is expected), with the
    [TypeError] of [dict]; it looks at the names that have a reference and
    at nothing else: the references themselves are stored unexamined, and
    the names beyond the last reference are never hashed. *)
Theorem X8_keys_fail_on_unhashable_name
  (config : pyval) (ns rs : list pyval) :
  declared_keys config = Ok (ns, rs) ->
  facts_keys config
  = if forallb hashable (take (length rs) ns)
    then Ok (dict_update [] (combine ns rs))
    else Raise (TypeError Unhashable).
Proof.
  unfold declared_keys, facts_keys, zip. intros H. binds_inv H.
  injection H as <- <-.
  rewrite E. cbn [bind]. rewrite E0. cbn [bind]. rewrite E1. cbn [bind].
  rewrite E2. cbn [bind]. rewrite E3. cbn [bind]. rewrite E4. cbn [bind].
  now rewrite dict_of_generator_pairs, combine_keys_take.
Qed.

Lemma X8_keys_fail_on_unhashable_name_witness :
  facts_keys
    (Examples.mapping
       [("facts",
         Examples.mapping
           [("keys",
             Examples.mapping
               [("columns_names",
                 PyList [PyStr "departement_id"; PyList [PyStr "site_id"]]);
                ("refs", PyList [PyStr "orgunit.id"; PyStr "site.id"])])])])
  = Raise (TypeError Unhashable).
Proof.
  apply (X8_keys_fail_on_unhashable_name
           (Examples.mapping
              [("facts",
                Examples.mapping
                  [("keys",
                    Examples.mapping
                      [("columns_names",
                        PyList [PyStr "departement_id";
                                PyList [PyStr "site_id"]]);
                       ("refs",
                        PyList [PyStr "orgunit.id"; PyStr "site.id"])])])])
           [PyStr "departement_id"; PyList [PyStr "site_id"]]
           [PyStr "orgunit.id"; PyStr "site.id"]).
  reflexivity.
Defined.

(** *** An empty [columns] and a [columns] without value *)

(** X9: a [columns] key that is present counts, whatever its value: with
    nothing to run through (an empty list, string or mapping) the dimension
    gets an empty columns mapping, as when the key is left out; but with no
    value at all ([columns:] followed by nothing, which YAML reads as
    [None]) the dimension fails with the [TypeError] of iterating [None]. *)
Theorem X9_columns_present_but_empty (entry d n dn : pyval) :
  getitem entry "dimension" = Ok d ->
  getitem d "name" = Ok n ->
  getitem d "displayName" = Ok dn ->
  (forall raw, getitem d "columns" = Ok raw -> iter raw = Ok [] ->
               get_dimension entry = Ok (mkDimension n dn []))
  /\ (getitem d "columns" = Ok PyNone ->
      get_dimension entry = Raise (TypeError NotIterable)).
Proof.
  intros Hd Hn Hdn.
  assert (Hpre : forall raw, getitem d "columns" = Ok raw ->
            get_dimension entry
            = let! cs := (let! cols := iter raw in
                          dict_of_generator column_pair cols []) in
              Ok (mkDimension n dn cs)).
  { intros raw Hraw. unfold get_dimension, dimension_columns.
    rewrite Hd. cbn [bind]. rewrite Hn. cbn [bind]. rewrite Hdn. cbn [bind].
    rewrite (getitem_contains _ _ _ Hraw). cbn [bind]. now rewrite Hraw. }
  split.
  - intros raw Hraw Hit. rewrite (Hpre _ Hraw), Hit. reflexivity.
  - intros Hraw. rewrite (Hpre _ Hraw). reflexivity.
Qed.

Lemma X9_columns_present_but_empty_witness :
  get_dimension (Examples.orgunit [("columns", PyList [])])
  = Ok (mkDimension (PyStr "orgunit") (PyStr "Organisation") [])
  /\ get_dimension (Examples.orgunit [("columns", PyNone)])
     = Raise (TypeError NotIterable).
Proof.
  split.
  - destruct (X9_columns_present_but_empty
                (Examples.orgunit [("columns", PyList [])])
                (Examples.mapping [("name", PyStr "orgunit");
                                   ("displayName", PyStr "Organisation");
                                   ("columns", PyList [])])
                (PyStr "orgunit") (PyStr "Organisation")
                eq_refl eq_refl eq_refl) as [Hempty _].
    apply (Hempty (PyList [])); reflexivity.
  - destruct (X9_columns_present_but_empty
                (Examples.orgunit [("columns", PyNone)])
                (Examples.mapping [("name", PyStr "orgunit");
                                   ("displayName", PyStr "Organisation");
                                   ("columns", PyNone)])
                (PyStr "orgunit") (PyStr "Organisation")
                eq_refl eq_refl eq_refl) as [_ Hnone].
    apply Hnone. reflexivity.
Defined.

(** *** The mappings of a descriptor are proper dictionaries *)

Lemma distinct_keys_snoc ks k :
  distinct_keys ks = true -> fresh_key ks k = true ->
  distinct_keys (ks ++ [k]) = true.
Proof.
  unfold fresh_key. induction ks as [|a r IH]; simpl; trivial.
  intros Hd Hf. apply andb_prop in Hd as [Ha Hr].
  apply andb_prop in Hf as [Hak Hrk].
  rewrite forallb_app, Ha, IH by trivial. simpl. now rewrite Hak.
Qed.

Lemma add_key_well_keyed ks k :
  Forall (fun k' => hashable k' = true) ks -> distinct_keys ks = true ->
  hashable k = true ->
  Forall (fun k' => hashable k' = true) (add_key ks k)
  /\ distinct_keys (add_key ks k) = true.
Proof.
  intros Hh Hd Hk. unfold add_key. destruct (fresh_key ks k) eqn:E.
  - split; [apply Forall_app; auto | now apply distinct_keys_snoc].
  - auto.
Qed.

Lemma dict_update_well_keyed ps : forall d,
  well_keyed d ->
  Forall (fun p => hashable (fst p) = true) ps ->
  well_keyed (dict_update d ps).
Proof.
  unfold well_keyed.
  induction ps as [|[k v] r IH]; intros d Hd Hps; simpl; trivial.
  inversion Hps as [|? ? Hk Hr]; subst. simpl in Hk.
  apply IH; trivial. rewrite dict_set_keys.
  destruct Hd. now apply add_key_well_keyed.
Qed.

Lemma well_keyed_empty : well_keyed [].
Proof. split; [constructor | reflexivity]. Qed.

Lemma dimension_columns_well_keyed entry cs :
  dimension_columns entry = Ok cs -> well_keyed cs.
Proof.
  unfold dimension_columns. intros H. binds_inv H.
  destruct a0.
  - binds_inv H. apply dict_of_generator_Ok in H as (ps & _ & Hh & ->).
    apply dict_update_well_keyed; [apply well_keyed_empty | trivial].
  - injection H as <-. apply well_keyed_empty.
Qed.

(** X10: in every descriptor that is returned, the keys mapping of the
    facts and the columns mapping of each dimension are proper dictionaries:
    every key is hashable and no two keys are equal, whatever repetitions
    the document contains. *)
Theorem X10_mappings_well_keyed
  (yaml_load : string -> result pyval) (self : ConfigParser)
  (conf_file : option string) (w : world) (cube : Cube) :
  fst (get_cube_config yaml_load self conf_file w) = Ok cube ->
  Forall (fun fct => well_keyed (keys fct)) (facts cube)
  /\ Forall (fun dim => well_keyed (columns dim)) (dimensions cube).
Proof.
  intros H.
  apply get_cube_config_Ok in H as (text & config & _ & _ & H).
  apply cube_of_config_Ok in H as (fs & ds & x & n & s & Hf & Hds & _ & _ & _ & ->).
  simpl. split.
  - apply get_facts_Ok in Hf as (f & t & ks & ms & _ & _ & Hks & _ & ->).
    apply facts_keys_declared in Hks as (ns & rs & _ & Hh & ->).
    repeat constructor; simpl;
      apply (dict_update_well_keyed _ [] well_keyed_empty Hh).
  - apply get_dimensions_Ok in Hds as (raw & entries & _ & _ & Hall).
    induction Hall as [|e dim es dims He _ IH]; constructor; trivial.
    apply get_dimension_Ok in He as (_ & _ & _ & _ & _ & _ & He & _).
    now apply dimension_columns_well_keyed in He.
Qed.

Lemma X10_mappings_well_keyed_witness :
  Forall (fun fct => well_keyed (keys fct))
    [mkFacts (PyStr "stats_line")
       [(PyStr "departement_id", PyStr "orgunit.id")]
       (PyList [PyStr "montant"; PyStr "salaire_brut_mensuel"])]
  /\ Forall (fun dim => well_keyed (columns dim))
       [mkDimension (PyStr "orgunit") (PyStr "Organisation")
          [(PyStr "type", PyStr "type"); (PyStr "nom", PyStr "nom")]].
Proof.
  apply (X10_mappings_well_keyed
           (Examples.parses_to Examples.scenario_A)
           (mkConfigParser Examples.config_path) None
           Examples.world_with_config
           (mkCube false (PyStr "labster") (PyStr "csv")
              [mkFacts (PyStr "stats_line")
                 [(PyStr "departement_id", PyStr "orgunit.id")]
                 (PyList [PyStr "montant"; PyStr "salaire_brut_mensuel"])]
              [mkDimension (PyStr "orgunit") (PyStr "Organisation")
                 [(PyStr "type", PyStr "type"); (PyStr "nom", PyStr "nom")]])).
  reflexivity.
Defined.

(** *** The bootstrap script and the loader *)

Lemma init_without_path (w : world) :
  __init__ None w
  = (Ok (mkConfigParser
           (join (match environ w !! "OLAPY_PATH" with
                  | Some v => v
                  | None => home w
                  end)
                 ["olapy-data"; "cubes"; "cubes-config.yml"])), w).
Proof.
  unfold __init__, _get_cube_path, io_bind, environ_contains, environ_get,
    expanduser_home, io_ret. simpl.
  destruct (environ w !! "OLAPY_PATH") as [v|] eqn:E.
  - rewrite bool_decide_eq_true_2 by eauto. now rewrite E.
  - now rewrite bool_decide_eq_false_2 by now intros [? [=]].
Qed.

Lemma join_olapy_config (base : string) :
  join base ["olapy-data"; "olapy-config.xml"]
  = (base
     ++ (if String.eqb base "" || ends_with_sep base then "" else "/")
     ++ "olapy-data/olapy-config.xml")%string.
Proof.
  unfold join. cbn [fold_left].
  assert (Hfirst : join_step base "olapy-data"
                   = (base ++ (if String.eqb base "" || ends_with_sep base
                               then "olapy-data" else "/olapy-data"))%string).
  { unfold join_step. change (String.prefix "/" "olapy-data") with false.
    cbv iota. now destruct (String.eqb base "" || ends_with_sep base). }
  rewrite Hfirst. clear Hfirst.
  destruct (String.eqb base "" || ends_with_sep base);
    now rewrite join_step_component by reflexivity.
Qed.

Lemma length_append (s t : string) :
  String.length (s ++ t)%string = String.length s + String.length t.
Proof.
  induction s as [|c s IH]; [reflexivity |].
  rewrite append_cons. simpl. now rewrite IH.
Qed.

(** Two paths that are equal end alike. *)
Lemma append_same_suffix (s t a b : string) :
  (s ++ a)%string = (t ++ b)%string ->
  String.length a = String.length b -> a = b.
Proof.
  intros H Hlen.
  assert (Hst : String.length s = String.length t).
  { apply (f_equal String.length) in H. rewrite !length_append in H. lia. }
  revert t H Hst. induction s as [|c s IH]; intros [|c' t] H Hst;
    try discriminate; [exact H |].
  rewrite !append_cons in H. injection H as _ H.
  apply (IH t); [exact H | now injection Hst].
Qed.

(** X11: outside tox ([RUNNING_TOX] not set) the bootstrap script prepares
    [olapy-data/cubes] under the home directory and never consults
    [OLAPY_PATH]; when [OLAPY_PATH] is not set either, the file the loader
    opens by default is [cubes-config.yml] directly inside that directory;
    and, whatever [OLAPY_PATH] is, the configuration file the script
    copies, [olapy-data/olapy-config.xml], is never the file the loader
    opens by default. *)
Theorem X11_bootstrap_and_loader_paths (w : world) :
  environ w !! "RUNNING_TOX" = None ->
  Setup.home_directory w = (Ok (Some (home w)), w)
  /\ (environ w !! "OLAPY_PATH" = None ->
      __init__ None w
      = (Ok (mkConfigParser
               (join (Setup.cubes_directory (home w)) ["cubes-config.yml"])),
         w))
  /\ (forall self,
        __init__ None w = (Ok self, w) ->
        cube_config_file self <> Setup.olapy_config (home w)).
Proof.
  intros Htox. repeat split.
  - unfold Setup.home_directory, Setup.RUNNING_TOX, io_bind, environ_contains,
      expanduser_home, io_ret.
    now rewrite bool_decide_eq_false_2 by (rewrite Htox; now intros [? [=]]).
  - intros Hpath. rewrite init_without_path, Hpath. reflexivity.
  - intros self Hinit Heq. rewrite init_without_path in Hinit.
    set (base := match environ w !! "OLAPY_PATH" with
                 | Some v => v
                 | None => home w
                 end) in Hinit.
    assert (Hself : cube_config_file self
                    = join base ["olapy-data"; "cubes"; "cubes-config.yml"])
      by (injection Hinit as <-; reflexivity).
    rewrite Hself in Heq. unfold Setup.olapy_config in Heq.
    rewrite join_cubes_config, join_olapy_config in Heq.
    assert (Hyml : forall sep : string,
               (sep ++ "olapy-data/cubes/cubes-config.yml")%string
               = ((sep ++ "olapy-data/cubes/cubes-config.") ++ "yml")%string)
      by (intros sep; now rewrite append_assoc).
    assert (Hxml : forall sep : string,
               (sep ++ "olapy-data/olapy-config.xml")%string
               = ((sep ++ "olapy-data/olapy-config.") ++ "xml")%string)
      by (intros sep; now rewrite append_assoc).
    rewrite Hyml, Hxml, <- !append_assoc in Heq.
    apply append_same_suffix in Heq; [discriminate | reflexivity].
Qed.

Lemma X11_bootstrap_and_loader_paths_witness :
  __init__ None Examples.world_with_config
  = (Ok (mkConfigParser
           (join (Setup.cubes_directory "/home/olapy") ["cubes-config.yml"])),
     Examples.world_with_config).
Proof.
  destruct (X11_bootstrap_and_loader_paths Examples.world_with_config eq_refl)
    as (_ & Hdefault & _).
  apply Hdefault. reflexivity.
Defined.

(** *** Dimensions written as a mapping *)

(** X12: the entries of [dimensions] are whatever iterating its value
    yields.  For a mapping that means its keys, so a non-empty mapping with
    a string as first key (a [dimension:] block written without the list
    dash) is not read as one dimension: once the facts have loaded, the load
    fails with the [TypeError] of subscripting a string; an empty list,
    string or mapping gives a cube without dimensions. *)
Theorem X12_dimensions_as_mapping
  (config x n s : pyval) (fs : list Facts) :
  get_facts config = Ok fs ->
  getitem config "xmla_authentication" = Ok x ->
  getitem config "name" = Ok n ->
  getitem config "source" = Ok s ->
  (forall k v rest,
      getitem config "dimensions" = Ok (PyDict ((PyStr k, v) :: rest)) ->
      cube_of_config config = Raise (TypeError BadIndex))
  /\ (forall raw,
        getitem config "dimensions" = Ok raw -> iter raw = Ok [] ->
        cube_of_config config = Ok (mkCube (truthy x) n s fs [])).
Proof.
  intros Hf Hx Hn Hs. split.
  - intros k v rest Hd. unfold cube_of_config, get_dimensions.
    rewrite Hf. cbn [bind]. rewrite Hd. reflexivity.
  - intros raw Hd Hit. unfold cube_of_config, get_dimensions.
    rewrite Hf. cbn [bind]. rewrite Hd. cbn [bind]. rewrite Hit.
    cbn [bind list_comprehension]. rewrite Hx. cbn [bind].
    rewrite Hn. cbn [bind]. now rewrite Hs.
Qed.

Lemma X12_dimensions_as_mapping_witness :
  cube_of_config
    (Examples.mapping
       [("xmla_authentication", PyBool false); ("name", PyStr "labster");
        ("source", PyStr "csv");
        ("facts", Examples.facts_section ["departement_id"] ["orgunit.id"]);
        ("dimensions",
         Examples.mapping
           [("dimension",
             Examples.mapping [("name", PyStr "orgunit");
                               ("displayName", PyStr "Organisation")])])])
  = Raise (TypeError BadIndex).
Proof.
  destruct (X12_dimensions_as_mapping
              (Examples.mapping
                 [("xmla_authentication", PyBool false);
                  ("name", PyStr "labster"); ("source", PyStr "csv");
                  ("facts",
                   Examples.facts_section ["departement_id"] ["orgunit.id"]);
                  ("dimensions",
                   Examples.mapping
                     [("dimension",
                       Examples.mapping
                         [("name", PyStr "orgunit");
                          ("displayName", PyStr "Organisation")])])])
              (PyBool false) (PyStr "labster") (PyStr "csv")
              [mkFacts (PyStr "stats_line")
                 [(PyStr "departement_id", PyStr "orgunit.id")]
                 (PyList [PyStr "montant"; PyStr "salaire_brut_mensuel"])]
              eq_refl eq_refl eq_refl eq_refl) as [Hmapping _].
  apply (Hmapping "dimension"
           (Examples.mapping [("name", PyStr "orgunit");
                              ("displayName", PyStr "Organisation")]) []).
  reflexivity.
Defined.

(** *** Fields the loader cannot do without *)

(** X13: a document only loads if it also has the fields that the loader
    reads without a test besides name, source and table name:
    [xmla_authentication], [facts.keys] with both [columns_names] and
    [refs], [facts.measures], and a [displayName] in every dimension; there
    is no default for any of them.  In particular a dimension with a name
    and no [displayName] fails with [KeyError('displayName')], and a
    document whose facts and dimensions load but that has no
    [xmla_authentication] fails with [KeyError('xmla_authentication')]. *)
Theorem X13_fields_without_default :
  (forall yaml_load self conf_file w cube,
      fst (get_cube_config yaml_load self conf_file w) = Ok cube ->
      exists text config f k raw entries,
        fs w !! file_path self conf_file = Some (RegularFile true text)
        /\ yaml_load text = Ok config
        /\ has_field config "xmla_authentication" = true
        /\ getitem config "facts" = Ok f
        /\ has_field f "measures" = true
        /\ getitem f "keys" = Ok k
        /\ has_field k "columns_names" = true
        /\ has_field k "refs" = true
        /\ getitem config "dimensions" = Ok raw
        /\ iter raw = Ok entries
        /\ Forall (fun entry =>
                     exists d, getitem entry "dimension" = Ok d
                               /\ has_field d "displayName" = true) entries)
  /\ (forall entry d n,
        getitem entry "dimension" = Ok (PyDict d) ->
        getitem (PyDict d) "name" = Ok n ->
        has_field (PyDict d) "displayName" = false ->
        get_dimension entry = Raise (KeyError "displayName"))
  /\ (forall d fs ds,
        get_facts (PyDict d) = Ok fs ->
        get_dimensions (PyDict d) = Ok ds ->
        has_field (PyDict d) "xmla_authentication" = false ->
        cube_of_config (PyDict d) = Raise (KeyError "xmla_authentication")).
Proof.
  repeat split.
  - intros yaml_load self conf_file w cube H.
    apply get_cube_config_Ok in H as (text & config & Hfile & Hparse & H).
    apply cube_of_config_Ok in H
      as (fs & ds & x & n & s & Hf & Hds & Hx & _ & _ & _).
    apply get_facts_Ok in Hf as (f & t & ks & ms & Hf & _ & Hks & Hms & _).
    apply facts_keys_Ok in Hks
      as (f' & k & names & refs & _ & _ & Hf' & Hk & Hnames & Hrefs & _).
    rewrite Hf in Hf'. injection Hf' as <-.
    apply get_dimensions_Ok in Hds as (raw & entries & Hraw & Hit & Hall).
    exists text, config, f, k, raw, entries.
    repeat split; trivial; try (eapply has_field_Ok; eassumption).
    clear - Hall. induction Hall as [|e dim es dims He _ IH]; constructor; trivial.
    apply get_dimension_Ok in He as (d & _ & dn & Hd & _ & Hdn & _).
    exists d. split; [trivial | eapply has_field_Ok; eassumption].
  - intros entry d n Hd Hn Hdn. unfold get_dimension.
    rewrite Hd. cbn [bind]. rewrite Hn. cbn [bind].
    now rewrite (getitem_missing _ _ Hdn).
  - intros d fs0 ds Hf Hds Hx. unfold cube_of_config.
    rewrite Hf. cbn [bind]. rewrite Hds. cbn [bind].
    now rewrite (getitem_missing _ _ Hx).
Qed.

Lemma X13_fields_without_default_witness :
  get_dimension
    (Examples.mapping
       [("dimension", Examples.mapping [("name", PyStr "orgunit")])])
  = Raise (KeyError "displayName").
Proof.
  destruct X13_fields_without_default as (_ & Hdisplay & _).
  apply (Hdisplay _ [(PyStr "name", PyStr "orgunit")] (PyStr "orgunit"));
    reflexivity.
Defined.
